(** * Tool dispatch of the GeoAI agents: a shallow embedding and its properties

    The development follows [agentgoogle/tools.py], [agentgoogle/agent.py]
    and [agenthelloworld/agent.py].  Python values are a small inductive
    type, dictionaries are association lists in insertion order, and the
    body of [ask] is written in a state-and-exception monad whose state
    records what was sent to the completion provider and what was printed. *)

From Stdlib Require Import String Ascii List ZArith Bool Lia DecimalString.
From Stdlib Require Import Floats.SpecFloat.
Import ListNotations.
Local Open Scope string_scope.
Local Open Scope list_scope.

Local Set Warnings "-register-all".

(** ** Python values *)

(** The values that travel through the agents: JSON-compatible data.
    A [dict] keeps its items in insertion order; its keys are strings,
    as in every dictionary the agents build or read from JSON.  A float
    is its binary64 datum. *)
Inductive pyval : Type :=
| PNone
| PBool (b : bool)
| PInt (z : Z)
| PFloat (f : spec_float)
| PStr (s : string)
| PList (l : list pyval)
| PDict (d : list (string * pyval)).

(** The float literal [1.0]: mantissa 2^52, exponent -52. *)
Definition float_1_0 : spec_float := S754_finite false 4503599627370496 (-52).

(** [type(v).__name__], as the interpreter prints it in messages. *)
Definition type_name (v : pyval) : string :=
  match v with
  | PNone => "NoneType"
  | PBool _ => "bool"
  | PInt _ => "int"
  | PFloat _ => "float"
  | PStr _ => "str"
  | PList _ => "list"
  | PDict _ => "dict"
  end.

(** [str] or [None], as an attribute such as [message.content] holds it. *)
Definition of_opt_str (o : option string) : pyval :=
  match o with
  | Some s => PStr s
  | None => PNone
  end.

(** ** Dictionaries *)

Fixpoint dict_get {A : Type} (k : string) (d : list (string * A)) : option A :=
  match d with
  | [] => None
  | (k', v) :: d' => if String.eqb k k' then Some v else dict_get k d'
  end.

(** [k in d] *)
Definition dict_mem {A : Type} (k : string) (d : list (string * A)) : bool :=
  match dict_get k d with
  | Some _ => true
  | None => false
  end.

Definition dict_keys {A : Type} (d : list (string * A)) : list string :=
  map fst d.

(** [d[k] = v]: an existing key keeps its place, a new one goes last. *)
Fixpoint dict_set {A : Type} (k : string) (v : A) (d : list (string * A))
  : list (string * A) :=
  match d with
  | [] => [(k, v)]
  | (k', v') :: d' =>
      if String.eqb k k' then (k, v) :: d' else (k', v') :: dict_set k v d'
  end.

(** ** Exceptions *)

(** The exceptions that can arise inside [ask]; all of them are
    instances of [Exception].  [Raised] stands for whatever a callee
    outside this code base raised (the completion call, the JSON
    decoder, the body of a tool), with its class name and [str(e)]. *)
Inductive exn : Type :=
| Raised (cls : string) (msg : string)
| IndexError_list
| TypeError_not_mapping (module : string) (fn : string) (ty : string)
| TypeError_unexpected_kw (fn : string) (key : string)
| TypeError_multiple_values (fn : string) (key : string)
| TypeError_missing (fn : string) (names : list string).

(** What a callee outside this code base may raise: an instance of
    [Exception], or an exception outside that class ([KeyboardInterrupt],
    [SystemExit], [GeneratorExit] and the like), given by class name and
    text.  A handler [except Exception] catches the former only. *)
Inductive thrown : Type :=
| Exc (e : exn)
| NonExc (cls : string) (msg : string).

Coercion Exc : exn >-> thrown.

Definition quote (s : string) : string := "'" ++ s ++ "'".

(** The list of names in a "missing arguments" message:
    ['a'], ['a' and 'b'], ['a', 'b', and 'c']. *)
Fixpoint comma_names (names : list string) : string :=
  match names with
  | [] => EmptyString
  | [a] => "and " ++ quote a
  | a :: rest => quote a ++ ", " ++ comma_names rest
  end.

Definition missing_names (names : list string) : string :=
  match names with
  | [] => EmptyString
  | [a] => quote a
  | [a; b] => quote a ++ " and " ++ quote b
  | _ => comma_names names
  end.

Definition nat_to_string (n : nat) : string :=
  NilEmpty.string_of_uint (Nat.to_uint n).

(** [str(e)]; the texts of the interpreter's own errors are those of
    CPython 3.10 to 3.12.  The errors of argument binding name the
    function by its qualified name; the error of spreading a value that
    is no mapping names it by module and qualified name. *)
Definition exn_str (e : exn) : string :=
  match e with
  | Raised _ msg => msg
  | IndexError_list => "list index out of range"
  | TypeError_not_mapping module fn ty =>
      module ++ "." ++ fn ++ "() argument after ** must be a mapping, not " ++ ty
  | TypeError_unexpected_kw fn key =>
      fn ++ "() got an unexpected keyword argument " ++ quote key
  | TypeError_multiple_values fn key =>
      fn ++ "() got multiple values for argument " ++ quote key
  | TypeError_missing fn names =>
      fn ++ "() missing " ++ nat_to_string (length names)
         ++ " required positional argument"
         ++ (match names with [_] => EmptyString | _ => "s" end)
         ++ ": " ++ missing_names names
  end.

(** ** Python functions and keyword calls *)

(** A function as the agents use one: called with keyword arguments
    only.  [fn_module] and [fn_qualname] are its [__module__] and
    [__qualname__]; [fn_params] lists the parameters after [self] with
    their defaults ([None] here: no default, the parameter is required);
    [fn_self] tells a bound method from a plain function; [fn_body]
    receives the bound values in parameter order and returns, or raises
    an instance of [Exception]. *)
Record pyfunc : Type := mk_pyfunc {
  fn_module : string;
  fn_qualname : string;
  fn_self : bool;
  fn_params : list (string * option pyval);
  fn_body : list pyval -> exn + pyval
}.

Definition param_names (f : pyfunc) : list string := dict_keys (fn_params f).

(** The parameters without a default. *)
Definition required_params (f : pyfunc) : list string :=
  dict_keys (filter (fun p => match snd p with None => true | Some _ => false end)
                    (fn_params f)).

(** First pass of a call: every keyword must name a parameter, in the
    order the keywords come; [self] is already bound for a method. *)
Fixpoint check_keywords (f : pyfunc) (kwargs : list (string * pyval)) : option exn :=
  match kwargs with
  | [] => None
  | (k, _) :: rest =>
      if dict_mem k (fn_params f) then check_keywords f rest
      else if fn_self f && String.eqb k "self"
           then Some (TypeError_multiple_values (fn_qualname f) k)
           else Some (TypeError_unexpected_kw (fn_qualname f) k)
  end.

(** Second pass: the required parameters no keyword has bound. *)
Definition missing_params (f : pyfunc) (kwargs : list (string * pyval)) : list string :=
  filter (fun p => negb (dict_mem p kwargs)) (required_params f).

(** The value a parameter is bound to: the keyword's, else the default. *)
Definition bind_param (kwargs : list (string * pyval)) (p : string * option pyval)
  : pyval :=
  match dict_get (fst p) kwargs with
  | Some v => v
  | None => match snd p with Some d => d | None => PNone end
  end.

Definition bind_params (f : pyfunc) (kwargs : list (string * pyval)) : list pyval :=
  map (bind_param kwargs) (fn_params f).

(** The call of [f] with the items of the dictionary [kwargs] spread as
    keyword arguments. *)
Definition call_kwargs (f : pyfunc) (kwargs : list (string * pyval)) : exn + pyval :=
  match check_keywords f kwargs with
  | Some e => inl e
  | None =>
      match missing_params f kwargs with
      | [] => fn_body f (bind_params f kwargs)
      | names => inl (TypeError_missing (fn_qualname f) names)
      end
  end.

(** The same call for any value [v]: only a mapping can be spread. *)
Definition call_spread (f : pyfunc) (v : pyval) : exn + pyval :=
  match v with
  | PDict kwargs => call_kwargs f kwargs
  | _ => inl (TypeError_not_mapping (fn_module f) (fn_qualname f) (type_name v))
  end.

(** ** [tools.py]: the map tools *)

Module MapTools.

(** A tool's result: [{"action": tag, "payload": payload}]. *)
Definition instruction (tag : string) (payload : list (string * pyval)) : pyval :=
  PDict [("action", PStr tag); ("payload", PDict payload)].

Definition add_basemap (name : pyval) : pyval :=
  instruction "add_basemap" [("name", name)].

Definition add_vector (data name : pyval) : pyval :=
  instruction "add_vector" [("data", data); ("name", name)].

Definition fly_to (longitude latitude zoom : pyval) : pyval :=
  instruction "fly_to"
    [("longitude", longitude); ("latitude", latitude); ("zoom", zoom)].

Definition add_cog_layer (url name opacity bands : pyval) : pyval :=
  instruction "add_cog_layer"
    [("url", url); ("name", name); ("opacity", opacity); ("bands", bands)].

Definition remove_layer (name : pyval) : pyval :=
  instruction "remove_layer" [("name", name)].

Definition set_pitch (pitch : pyval) : pyval :=
  instruction "set_pitch" [("pitch", pitch)].

Definition set_opacity (name opacity : pyval) : pyval :=
  instruction "set_opacity" [("name", name); ("opacity", opacity)].

Definition zoom_to (zoom : pyval) : pyval :=
  instruction "zoom_to" [("zoom", zoom)].

Definition get_layer_names : pyval :=
  instruction "get_layer_names" [].

Definition set_terrain (exaggeration : pyval) : pyval :=
  instruction "set_terrain" [("exaggeration", exaggeration)].

Definition remove_terrain : pyval :=
  instruction "remove_terrain" [].

(** The class has further methods (create_map, add_marker, set_color and
    others); the agent does not register them, and they are left out.

    The bound methods, with their signatures.  A body is only ever
    reached through [call_kwargs], which hands it one value per
    parameter; the last branch is never taken. *)
Definition method (name : string) (params : list (string * option pyval))
    (body : list pyval -> pyval) : pyfunc :=
  mk_pyfunc "tools" ("MapTools." ++ name) true params (fun vs => inr (body vs)).

Definition add_basemap_m : pyfunc :=
  method "add_basemap" [("name", None)]
    (fun vs => match vs with [name] => add_basemap name | _ => PNone end).

Definition add_vector_m : pyfunc :=
  method "add_vector" [("data", None); ("name", Some PNone)]
    (fun vs => match vs with [data; name] => add_vector data name | _ => PNone end).

Definition fly_to_m : pyfunc :=
  method "fly_to" [("longitude", None); ("latitude", None); ("zoom", Some (PInt 12))]
    (fun vs => match vs with
               | [longitude; latitude; zoom] => fly_to longitude latitude zoom
               | _ => PNone
               end).

Definition add_cog_layer_m : pyfunc :=
  method "add_cog_layer"
    [("url", None); ("name", Some PNone); ("opacity", Some (PFloat float_1_0));
     ("bands", Some PNone)]
    (fun vs => match vs with
               | [url; name; opacity; bands] => add_cog_layer url name opacity bands
               | _ => PNone
               end).

Definition remove_layer_m : pyfunc :=
  method "remove_layer" [("name", None)]
    (fun vs => match vs with [name] => remove_layer name | _ => PNone end).

Definition set_pitch_m : pyfunc :=
  method "set_pitch" [("pitch", None)]
    (fun vs => match vs with [pitch] => set_pitch pitch | _ => PNone end).

Definition set_opacity_m : pyfunc :=
  method "set_opacity" [("name", None); ("opacity", None)]
    (fun vs => match vs with
               | [name; opacity] => set_opacity name opacity
               | _ => PNone
               end).

Definition zoom_to_m : pyfunc :=
  method "zoom_to" [("zoom", None)]
    (fun vs => match vs with [zoom] => zoom_to zoom | _ => PNone end).

Definition get_layer_names_m : pyfunc :=
  method "get_layer_names" []
    (fun vs => match vs with [] => get_layer_names | _ => PNone end).

Definition set_terrain_m : pyfunc :=
  method "set_terrain" [("exaggeration", Some (PFloat float_1_0))]
    (fun vs => match vs with [exaggeration] => set_terrain exaggeration | _ => PNone end).

Definition remove_terrain_m : pyfunc :=
  method "remove_terrain" []
    (fun vs => match vs with [] => remove_terrain | _ => PNone end).

End MapTools.

(** ** The completion provider and the effects of [ask] *)

(** One entry of [message.tool_calls]: [function.name] and
    [function.arguments] (a JSON text, or [None]). *)
Record tool_call : Type := mk_tool_call {
  tc_name : string;
  tc_arguments : option string
}.

(** [choice.message].  [msg_tool_calls] is what
    [getattr(message, "tool_calls", None)] yields: [None] when the
    attribute is missing or holds [None]. *)
Record message : Type := mk_message {
  msg_content : option string;
  msg_tool_calls : option (list tool_call)
}.

(** The provider's response: the messages of its [choices], in order. *)
Record response : Type := mk_response {
  choices : list message
}.

(** The arguments of one [completion(...)] call. *)
Record request : Type := mk_request {
  req_model : string;
  req_messages : list pyval;
  req_tools : list pyval;
  req_kwargs : list (string * pyval)
}.

(** What a request leaves behind: the calls made to the provider and the
    lines printed, oldest first. *)
Record world : Type := mk_world {
  sent : list request;
  stdout : list string
}.

Definition M (A : Type) : Type := world -> (thrown + A) * world.

Definition ret {A : Type} (a : A) : M A := fun w => (inr a, w).

Definition bind {A B : Type} (c : M A) (k : A -> M B) : M B :=
  fun w => match c w with
           | (inr a, w') => k a w'
           | (inl e, w') => (inl e, w')
           end.

(** The outcome of a computation of this code base or of the
    interpreter, which raise instances of [Exception] only. *)
Definition lift {A : Type} (r : exn + A) : M A :=
  fun w => (match r with
            | inr a => inr a
            | inl e => inl (Exc e)
            end, w).

(** [try: c except Exception as e: h e]: an exception outside
    [Exception] is not caught and goes on to the caller. *)
Definition try_except {A : Type} (c : M A) (h : exn -> M A) : M A :=
  fun w => match c w with
           | (inr a, w') => (inr a, w')
           | (inl (Exc e), w') => h e w'
           | (inl (NonExc cls msg), w') => (inl (NonExc cls msg), w')
           end.

Definition print (line : string) : M unit :=
  fun w => (inr tt, mk_world (sent w) (stdout w ++ [line])).

Notation "x <- c ;; k" := (bind c (fun x => k))
  (at level 61, c at next level, right associativity).
Notation "c ;;; k" := (bind c (fun _ => k))
  (at level 61, right associativity).

(** [xs[0]] *)
Definition index0 {A : Type} (xs : list A) : exn + A :=
  match xs with
  | x :: _ => inr x
  | [] => inl IndexError_list
  end.

(** Truth value of a [str]-or-[None] setting. *)
Definition truthy_opt_str (o : option string) : bool :=
  match o with
  | None => false
  | Some s => negb (String.eqb s EmptyString)
  end.

(** [arguments or "{}"] *)
Definition or_empty_object (arguments : option string) : string :=
  if truthy_opt_str arguments
  then match arguments with Some s => s | None => "{}" end
  else "{}".

Section Provider.

(** The completion service, as a stub sees it: a function of the
    request that answers or raises, an instance of [Exception] or not. *)
Variable completion : request -> thrown + response.

Definition call_completion (r : request) : M response :=
  fun w => (completion r, mk_world (sent w ++ [r]) (stdout w)).

(** [json.loads], the standard library's JSON decoder; what it raises
    (a decoding error, a type error) is an instance of [Exception]. *)
Variable json_loads : string -> exn + pyval.

(** [try: tool_args = json.loads(raw_args) except Exception: tool_args = {}] *)
Definition loads_or_empty (raw_args : string) : pyval :=
  match json_loads raw_args with
  | inr v => v
  | inl _ => PDict []
  end.

End Provider.

(** ** Reading a tool schema *)

(** [v[k]] for a dictionary [v]. *)
Definition field (k : string) (v : pyval) : option pyval :=
  match v with
  | PDict d => dict_get k d
  | _ => None
  end.

(** [spec["function"]["name"]] *)
Definition spec_name (spec : pyval) : option string :=
  match field "function" spec with
  | Some fn => match field "name" fn with
               | Some (PStr n) => Some n
               | _ => None
               end
  | None => None
  end.

Definition str_items (v : pyval) : list string :=
  match v with
  | PList l => flat_map (fun x => match x with PStr s => [s] | _ => [] end) l
  | _ => []
  end.

(** [spec["function"]["parameters"].get("required", [])]: a schema
    without the key requires nothing. *)
Definition spec_required (spec : pyval) : list string :=
  match field "function" spec with
  | Some fn => match field "parameters" fn with
               | Some ps => match field "required" ps with
                            | Some r => str_items r
                            | None => []
                            end
               | None => []
               end
  | None => []
  end.

(** The schemas of a list that advertise the identifier [n]. *)
Definition specs_named (n : string) (specs : list pyval) : list pyval :=
  filter (fun spec => match spec_name spec with
                      | Some n' => String.eqb n n'
                      | None => false
                      end) specs.

(** ** [agentgoogle/agent.py]: the map-control agent *)

Module GeoAgent.

(** [self.tools], in the order of the dictionary display. *)
Definition tools : list (string * pyfunc) :=
  [ ("fly_to", MapTools.fly_to_m);
    ("zoom_to", MapTools.zoom_to_m);
    ("add_basemap", MapTools.add_basemap_m);
    ("add_cog_layer", MapTools.add_cog_layer_m);
    ("add_vector", MapTools.add_vector_m);
    ("remove_layer", MapTools.remove_layer_m);
    ("get_layer_names", MapTools.get_layer_names_m);
    ("set_terrain", MapTools.set_terrain_m);
    ("remove_terrain", MapTools.remove_terrain_m);
    ("set_pitch", MapTools.set_pitch_m);
    ("set_opacity", MapTools.set_opacity_m) ].

Definition ty (t : string) : pyval := PDict [("type", PStr t)].

(** [self.tool_specs] *)
Definition tool_specs : list pyval :=
  [ PDict [("type", PStr "function");
           ("function", PDict [
              ("name", PStr "zoom_to");
              ("description", PStr "Zoom the map to a specific level.");
              ("parameters", PDict [
                 ("type", PStr "object");
                 ("properties", PDict [("zoom", ty "number")]);
                 ("required", PList [PStr "zoom"])])])];
    PDict [("type", PStr "function");
           ("function", PDict [
              ("name", PStr "add_cog_layer");
              ("description", PStr "Add a COG layer by URL.");
              ("parameters", PDict [
                 ("type", PStr "object");
                 ("properties", PDict [("url", ty "string")]);
                 ("required", PList [PStr "url"])])])];
    PDict [("type", PStr "function");
           ("function", PDict [
              ("name", PStr "fly_to");
              ("description", PStr "Fly to longitude, latitude.");
              ("parameters", PDict [
                 ("type", PStr "object");
                 ("properties", PDict [("longitude", ty "number");
                                       ("latitude", ty "number")]);
                 ("required", PList [PStr "longitude"; PStr "latitude"])])])];
    PDict [("type", PStr "function");
           ("function", PDict [
              ("name", PStr "add_basemap");
              ("description", PStr "Add a basemap by name.");
              ("parameters", PDict [
                 ("type", PStr "object");
                 ("properties", PDict [("name", ty "string")]);
                 ("required", PList [PStr "name"])])])];
    PDict [("type", PStr "function");
           ("function", PDict [
              ("name", PStr "remove_layer");
              ("description", PStr "Remove a layer by name.");
              ("parameters", PDict [
                 ("type", PStr "object");
                 ("properties", PDict [("name", ty "string")]);
                 ("required", PList [PStr "name"])])])];
    PDict [("type", PStr "function");
           ("function", PDict [
              ("name", PStr "get_layer_names");
              ("description", PStr "Get the names of all layers.");
              ("parameters", PDict [
                 ("type", PStr "object");
                 ("properties", PDict [])])])];
    PDict [("type", PStr "function");
           ("function", PDict [
              ("name", PStr "set_terrain");
              ("description", PStr "Set terrain exaggeration.");
              ("parameters", PDict [
                 ("type", PStr "object");
                 ("properties", PDict [("exaggeration", ty "number")])])])];
    PDict [("type", PStr "function");
           ("function", PDict [
              ("name", PStr "remove_terrain");
              ("description", PStr "Remove terrain.");
              ("parameters", PDict [
                 ("type", PStr "object");
                 ("properties", PDict [])])])];
    PDict [("type", PStr "function");
           ("function", PDict [
              ("name", PStr "set_pitch");
              ("description", PStr "Set the map pitch.");
              ("parameters", PDict [
                 ("type", PStr "object");
                 ("properties", PDict [("pitch", ty "number")]);
                 ("required", PList [PStr "pitch"])])])];
    PDict [("type", PStr "function");
           ("function", PDict [
              ("name", PStr "set_opacity");
              ("description", PStr "Set layer opacity.");
              ("parameters", PDict [
                 ("type", PStr "object");
                 ("properties", PDict [("name", ty "string");
                                       ("opacity", ty "number")]);
                 ("required", PList [PStr "name"; PStr "opacity"])])])];
    PDict [("type", PStr "function");
           ("function", PDict [
              ("name", PStr "add_vector");
              ("description", PStr "Add a vector dataset.");
              ("parameters", PDict [
                 ("type", PStr "object");
                 ("properties", PDict [("data", ty "string");
                                       ("name", ty "string")]);
                 ("required", PList [PStr "data"])])])] ].

Definition system_prompt : string :=
  "You are a map control agent. Translate the user's request into a single tool call. "
  ++ "Call ONE tool with MINIMAL parameters only.".

(** The messages handed to the provider: the list starts with the system
    prompt, the loop appends the history item by item, and the user's
    query goes last. *)
Definition build_messages (query : string) (history : list pyval) : list pyval :=
  let messages := [PDict [("role", PStr "system"); ("content", PStr system_prompt)]] in
  let messages := fold_left (fun messages message => messages ++ [message])
                            history messages in
  messages ++ [PDict [("role", PStr "user"); ("content", PStr query)]].

Definition chat_response (content : option string) : pyval :=
  PDict [("action", PStr "chat_response");
         ("payload", PDict [("message", of_opt_str content)])].

Definition error_result (text : string) : pyval :=
  PDict [("action", PStr "error"); ("payload", PDict [("message", PStr text)])].

Section Agent.

(** The module-level settings, read from the environment at import. *)
Variable MODEL_NAME : string.
Variable API_BASE : option string.

Variable completion : request -> thrown + response.
Variable json_loads : string -> exn + pyval.

(** The extra keyword arguments of the completion call: [api_base],
    when the setting is a non-empty string. *)
Definition completion_kwargs : list (string * pyval) :=
  let kwargs : list (string * pyval) := [] in
  if truthy_opt_str API_BASE
  then dict_set "api_base" (of_opt_str API_BASE) kwargs
  else kwargs.

(** The body of the [try] block. *)
Definition ask_body (messages : list pyval) : M pyval :=
  let kwargs := completion_kwargs in
  response <- call_completion completion
                (mk_request MODEL_NAME messages tool_specs kwargs) ;;
  response_message <- lift (index0 (choices response)) ;;
  match msg_tool_calls response_message with
  | None | Some [] => ret (chat_response (msg_content response_message))
  | Some (tool_call :: _) =>
      let tool_name := tc_name tool_call in
      let raw_args := or_empty_object (tc_arguments tool_call) in
      let tool_args := loads_or_empty json_loads raw_args in
      match dict_get tool_name tools with
      | Some tool_function => lift (call_spread tool_function tool_args)
      | None => ret (error_result ("Tool '" ++ tool_name ++ "' not found."))
      end
  end.

Definition ask (query : string) (history : list pyval) : M pyval :=
  let messages := build_messages query history in
  try_except (ask_body messages)
    (fun e => print ("An error occurred: " ++ exn_str e) ;;;
              ret (error_result (exn_str e))).

(** The request a run of [ask] hands to the provider. *)
Definition outbound (query : string) (history : list pyval) : request :=
  mk_request MODEL_NAME (build_messages query history) tool_specs completion_kwargs.

End Agent.

End GeoAgent.

(** ** [agenthelloworld/agent.py]: the greeting agent *)

Module HelloWorldAgent.

(** [self.tool_specs] *)
Definition tool_specs : list pyval :=
  [ PDict [("type", PStr "function");
           ("function", PDict [
              ("name", PStr "greet");
              ("description", PStr "Generates a greeting for the given name.");
              ("parameters", PDict [
                 ("type", PStr "object");
                 ("properties", PDict [
                    ("name", PDict [
                       ("type", PStr "string");
                       ("description", PStr "The name of the person to greet.")])]);
                 ("required", PList [PStr "name"])])])] ].

Definition system_prompt : string :=
  "You are a friendly assistant. Use tools when appropriate; "
  ++ "otherwise respond naturally.".

Definition build_messages (query : string) : list pyval :=
  [ PDict [("role", PStr "system"); ("content", PStr system_prompt)];
    PDict [("role", PStr "user"); ("content", PStr query)] ].

Definition reply (v : pyval) : pyval := PDict [("response", v)].

Section Agent.

Variable MODEL_NAME : string.
Variable OLLAMA_BASE_URL : option string.

Variable completion : request -> thrown + response.
Variable json_loads : string -> exn + pyval.

(** [tools.greet]: the module [tools] of this agent is not among the
    sources, so the function is left open: any signature, any body. *)
Variable greet : pyfunc.

(** [self.tool_functions] *)
Definition tool_functions : list (string * pyfunc) := [("greet", greet)].

(** The extra keyword arguments of the completion call: [api_base],
    when the setting is a non-empty string. *)
Definition completion_kwargs : list (string * pyval) :=
  let kwargs : list (string * pyval) := [] in
  if truthy_opt_str OLLAMA_BASE_URL
  then dict_set "api_base" (of_opt_str OLLAMA_BASE_URL) kwargs
  else kwargs.

(** The body of the [try] block. *)
Definition ask_body (messages : list pyval) : M pyval :=
  let kwargs := completion_kwargs in
  response <- call_completion completion
                (mk_request MODEL_NAME messages tool_specs kwargs) ;;
  response_message <- lift (index0 (choices response)) ;;
  match msg_tool_calls response_message with
  | None | Some [] => ret (reply (of_opt_str (msg_content response_message)))
  | Some (tool_call :: _) =>
      let tool_name := tc_name tool_call in
      let raw_args := or_empty_object (tc_arguments tool_call) in
      let tool_args := loads_or_empty json_loads raw_args in
      match dict_get tool_name tool_functions with
      | Some tool_function =>
          tool_result <- lift (call_spread tool_function tool_args) ;;
          ret (reply tool_result)
      | None => ret (reply (PStr ("Error: Tool '" ++ tool_name ++ "' not found.")))
      end
  end.

Definition ask (query : string) : M pyval :=
  let messages := build_messages query in
  try_except (ask_body messages)
    (fun e => print ("An error occurred: " ++ exn_str e) ;;;
              ret (reply (PStr ("Error: " ++ exn_str e)))).

(** The request a run of [ask] hands to the provider. *)
Definition outbound (query : string) : request :=
  mk_request MODEL_NAME (build_messages query) tool_specs completion_kwargs.

End Agent.

End HelloWorldAgent.

(** ** Vocabulary of the properties *)

(** [needle] occurs in [text]. *)
Definition occurs_in (needle text : string) : Prop :=
  exists pre post : string, text = (pre ++ needle ++ post)%string.

(** A response without tool selection: the attribute is missing, [None]
    or an empty list. *)
Definition no_tool_selection (m : message) : Prop :=
  msg_tool_calls m = None \/ msg_tool_calls m = Some [].

(** The argument text of a tool call is unusable: the decoder raises on
    it, or there is no text and the decoder reads the empty object. *)
Definition malformed_or_missing (json_loads : string -> exn + pyval)
    (tc : tool_call) : Prop :=
  (exists e, json_loads (or_empty_object (tc_arguments tc)) = inl e)
  \/ (truthy_opt_str (tc_arguments tc) = false /\ json_loads "{}" = inr (PDict [])).

(** What the top-level handler of the map agent makes of an outcome. *)
Definition geo_handled (r : exn + pyval) : pyval :=
  match r with
  | inr v => v
  | inl e => GeoAgent.error_result (exn_str e)
  end.

(** What the top-level handler of the greeting agent makes of the
    outcome of a tool. *)
Definition hello_handled (r : exn + pyval) : pyval :=
  match r with
  | inr v => HelloWorldAgent.reply v
  | inl e => HelloWorldAgent.reply (PStr ("Error: " ++ exn_str e))
  end.

(** ** A JSON decoder to run the agents with *)

(** [json_decode] reads the JSON texts made of objects, arrays, strings
    without escapes, integers, [true], [false] and [null], with optional
    white space; on any other text it raises.  It stands in for
    [json.loads] where an agent is run on such a text. *)
Module Json.

(** The double quote character, and a text between double quotes. *)
Definition dquote : ascii := ascii_of_nat 34.

Definition quoted (s : string) : string :=
  String dquote s ++ String dquote EmptyString.

Definition is_ws (c : ascii) : bool :=
  let n := nat_of_ascii c in
  (n =? 32)%nat || (n =? 9)%nat || (n =? 10)%nat || (n =? 13)%nat.

Definition is_digit (c : ascii) : bool :=
  let n := nat_of_ascii c in (48 <=? n)%nat && (n <=? 57)%nat.

Definition digit_val (c : ascii) : Z := Z.of_nat (nat_of_ascii c) - 48.

Fixpoint skip_ws (s : string) : string :=
  match s with
  | String c rest => if is_ws c then skip_ws rest else s
  | EmptyString => s
  end.

(** The characters up to the closing quote, and what follows it. *)
Fixpoint read_string (s : string) : option (string * string) :=
  match s with
  | EmptyString => None
  | String c rest =>
      if Ascii.eqb c dquote then Some (EmptyString, rest)
      else if Ascii.eqb c "\" then None
      else if (nat_of_ascii c <? 32)%nat then None
      else match read_string rest with
           | Some (body, rest') => Some (String c body, rest')
           | None => None
           end
  end.

Fixpoint read_digits (acc : Z) (s : string) : Z * string :=
  match s with
  | String c rest =>
      if is_digit c then read_digits (10 * acc + digit_val c) rest else (acc, s)
  | EmptyString => (acc, s)
  end.

(** A number without sign: [0], or a digit [1..9] followed by digits. *)
Definition read_nat (s : string) : option (Z * string) :=
  match s with
  | String c rest =>
      if Ascii.eqb c "0" then Some (0%Z, rest)
      else if is_digit c then Some (read_digits (digit_val c) rest)
      else None
  | EmptyString => None
  end.

(** A fraction, an exponent or a further digit after the integer part. *)
Definition starts_number_tail (s : string) : bool :=
  match s with
  | String c _ => Ascii.eqb c "." || Ascii.eqb c "e" || Ascii.eqb c "E" || is_digit c
  | EmptyString => false
  end.

Definition read_int (s : string) : option (pyval * string) :=
  let (neg, s') := match s with
                   | String "-" rest => (true, rest)
                   | _ => (false, s)
                   end in
  match read_nat s' with
  | Some (n, rest) =>
      if starts_number_tail rest then None
      else Some (PInt (if neg then - n else n)%Z, rest)
  | None => None
  end.

Definition expect (word : string) (v : pyval) (s : string) : option (pyval * string) :=
  if prefix word s
  then Some (v, substring (String.length word) (String.length s - String.length word) s)
  else None.

(** One value, then the rest of the text.  [fuel] bounds the nesting
    depth; the items of one array or object are bounded by the length of
    the text. *)
Fixpoint read_value (fuel : nat) (s : string) : option (pyval * string) :=
  match fuel with
  | O => None
  | S fuel' =>
      let read_items :=
        fix read_items (n : nat) (acc : list pyval) (s : string)
          : option (pyval * string) :=
          match n with
          | O => None
          | S n' =>
              match read_value fuel' s with
              | Some (v, rest) =>
                  match skip_ws rest with
                  | String "," rest' => read_items n' (acc ++ [v]) rest'
                  | String "]" rest' => Some (PList (acc ++ [v]), rest')
                  | _ => None
                  end
              | None => None
              end
          end in
      let read_members :=
        fix read_members (n : nat) (acc : list (string * pyval)) (s : string)
          : option (pyval * string) :=
          match n with
          | O => None
          | S n' =>
              match skip_ws s with
              | String c rest =>
                  if Ascii.eqb c dquote then
                    match read_string rest with
                    | Some (key, rest1) =>
                        match skip_ws rest1 with
                        | String ":" rest2 =>
                            match read_value fuel' rest2 with
                            | Some (v, rest3) =>
                                match skip_ws rest3 with
                                | String "," rest4 =>
                                    read_members n' (dict_set key v acc) rest4
                                | String "}" rest4 =>
                                    Some (PDict (dict_set key v acc), rest4)
                                | _ => None
                                end
                            | None => None
                            end
                        | _ => None
                        end
                    | None => None
                    end
                  else None
              | EmptyString => None
              end
          end in
      match skip_ws s with
      | EmptyString => None
      | String c rest as s0 =>
          if Ascii.eqb c dquote then
            match read_string rest with
            | Some (body, rest') => Some (PStr body, rest')
            | None => None
            end
          else if Ascii.eqb c "{" then
            match skip_ws rest with
            | String "}" rest' => Some (PDict [], rest')
            | _ => read_members (String.length s) [] rest
            end
          else if Ascii.eqb c "[" then
            match skip_ws rest with
            | String "]" rest' => Some (PList [], rest')
            | _ => read_items (String.length s) [] rest
            end
          else if Ascii.eqb c "t" then expect "true" (PBool true) s0
          else if Ascii.eqb c "f" then expect "false" (PBool false) s0
          else if Ascii.eqb c "n" then expect "null" PNone s0
          else read_int s0
      end
  end.

Definition json_decode (s : string) : exn + pyval :=
  match read_value (S (String.length s)) s with
  | Some (v, rest) =>
      match skip_ws rest with
      | EmptyString => inr v
      | _ => inl (Raised "JSONDecodeError" "Extra data")
      end
  | None => inl (Raised "JSONDecodeError" "Expecting value")
  end.

End Json.

(** ** Stubs to run the agents with *)

(** A provider that gives the same outcome to every request. *)
Definition stub (outcome : thrown + response) : request -> thrown + response :=
  fun _ => outcome.

(** A response with a single choice. *)
Definition single_choice (content : option string)
    (tool_calls : option (list tool_call)) : response :=
  mk_response [mk_message content tool_calls].

(** Modelled from the spec: [tools.greet] of the greeting agent is not
    among the sources; the spec gives its signature, greet(name), and the
    schema says it generates a greeting for the given name.  This sample
    has that signature and a wording of its own; it only serves to run
    the agent on concrete inputs. *)
Definition greet_sample : pyfunc :=
  mk_pyfunc "tools" "greet" false [("name", None)]
    (fun vs => match vs with
               | [PStr name] => inr (PStr ("Hello, " ++ name ++ "!"))
               | _ => inl (Raised "TypeError" "can only concatenate str to str")
               end).

Definition world0 : world := mk_world [] [].

(** The argument text of the zoom example: an object with the one member
    zoom, of value 5. *)
Definition zoom_5_text : string := "{" ++ Json.quoted "zoom" ++ ": 5}".

(** ** [tools.py]: the methods the agent does not register *)

Module MapToolsUnregistered.

(** The float literals [20.0] and [0.0]. *)
Definition float_20_0 : spec_float := S754_finite false 5629499534213120 (-48).
Definition float_0_0 : spec_float := S754_zero false.

(** The centre is a list, longitude first. *)
Definition create_map (center_lat center_lon zoom style projection : pyval) : pyval :=
  MapTools.instruction "create_map"
    [("center", PList [center_lon; center_lat]);
     ("zoom", zoom);
     ("style", style);
     ("projection", projection)].

(** The method takes any keyword arguments and hands them on as the
    payload.  It is called here as the others are, as a bound method with
    the items of a dictionary for keywords: a keyword named self meets the
    instance already bound, and the call raises. *)
Definition add_overture_3d_buildings (kwargs : list (string * pyval)) : exn + pyval :=
  if dict_mem "self" kwargs
  then inl (TypeError_multiple_values "MapTools.add_overture_3d_buildings" "self")
  else inr (MapTools.instruction "add_overture_3d_buildings" kwargs).

Definition set_paint_property (name prop value : pyval) : pyval :=
  MapTools.instruction "set_paint_property"
    [("name", name); ("prop", prop); ("value", value)].

Definition set_layout_property (name prop value : pyval) : pyval :=
  MapTools.instruction "set_layout_property"
    [("name", name); ("prop", prop); ("value", value)].

Definition set_color (name color : pyval) : pyval :=
  MapTools.instruction "set_color" [("name", name); ("color", color)].

Definition set_visibility (name visible : pyval) : pyval :=
  MapTools.instruction "set_visibility" [("name", name); ("visible", visible)].

Definition add_marker (lng_lat popup : pyval) : pyval :=
  MapTools.instruction "add_marker" [("lng_lat", lng_lat); ("popup", popup)].

Definition create_map_m : pyfunc :=
  MapTools.method "create_map"
    [("center_lat", Some (PFloat float_20_0));
     ("center_lon", Some (PFloat float_0_0));
     ("zoom", Some (PInt 2));
     ("style", Some (PStr "liberty"));
     ("projection", Some (PStr "globe"))]
    (fun vs => match vs with
               | [center_lat; center_lon; zoom; style; projection] =>
                   create_map center_lat center_lon zoom style projection
               | _ => PNone
               end).

Definition set_paint_property_m : pyfunc :=
  MapTools.method "set_paint_property" [("name", None); ("prop", None); ("value", None)]
    (fun vs => match vs with
               | [name; prop; value] => set_paint_property name prop value
               | _ => PNone
               end).

Definition set_layout_property_m : pyfunc :=
  MapTools.method "set_layout_property" [("name", None); ("prop", None); ("value", None)]
    (fun vs => match vs with
               | [name; prop; value] => set_layout_property name prop value
               | _ => PNone
               end).

Definition set_color_m : pyfunc :=
  MapTools.method "set_color" [("name", None); ("color", None)]
    (fun vs => match vs with [name; color] => set_color name color | _ => PNone end).

Definition set_visibility_m : pyfunc :=
  MapTools.method "set_visibility" [("name", None); ("visible", None)]
    (fun vs => match vs with
               | [name; visible] => set_visibility name visible
               | _ => PNone
               end).

Definition add_marker_m : pyfunc :=
  MapTools.method "add_marker" [("lng_lat", None); ("popup", Some PNone)]
    (fun vs => match vs with
               | [lng_lat; popup] => add_marker lng_lat popup
               | _ => PNone
               end).

(** The methods with a fixed signature, by name. *)
Definition methods : list (string * pyfunc) :=
  [ ("create_map", create_map_m);
    ("set_paint_property", set_paint_property_m);
    ("set_layout_property", set_layout_property_m);
    ("set_color", set_color_m);
    ("set_visibility", set_visibility_m);
    ("add_marker", add_marker_m) ].

(** The names of all seven. *)
Definition names : list string :=
  dict_keys methods ++ ["add_overture_3d_buildings"].

End MapToolsUnregistered.

(** Every method of the class with a fixed signature, registered or not. *)
Definition all_methods : list (string * pyfunc) :=
  GeoAgent.tools ++ MapToolsUnregistered.methods.

(** ** More of a tool schema *)

(** The parameter names a schema advertises: the keys of
    [spec["function"]["parameters"]["properties"]]. *)
Definition spec_properties (spec : pyval) : list string :=
  match field "function" spec with
  | Some fn => match field "parameters" fn with
               | Some ps => match field "properties" ps with
                            | Some (PDict props) => dict_keys props
                            | _ => []
                            end
               | None => []
               end
  | None => []
  end.


(** The argument text of a flight to longitude 2, latitude 48, and one
    with a key that no tool knows. *)
Definition fly_to_text : string :=
  "{" ++ Json.quoted "longitude" ++ ": 2, " ++ Json.quoted "latitude" ++ ": 48}".


(** A provider that selects one tool with the given argument text. *)
Definition selects (name : string) (arguments : string)
  : request -> thrown + response :=
  stub (inr (single_choice None (Some [mk_tool_call name (Some arguments)]))).

(** * Properties *)

(** ** The outbound messages *)

Lemma fold_left_append (history acc : list pyval) :
  fold_left (fun messages message => messages ++ [message]) history acc
  = acc ++ history.
Proof.
  revert acc.
  induction history as [| message history IH]; intros acc; simpl.
  - now rewrite app_nil_r.
  - rewrite IH, <- app_assoc. reflexivity.
Qed.

Lemma build_messages_eq (query : string) (history : list pyval) :
  GeoAgent.build_messages query history
  = PDict [("role", PStr "system"); ("content", PStr GeoAgent.system_prompt)]
    :: history ++ [PDict [("role", PStr "user"); ("content", PStr query)]].
Proof.
  unfold GeoAgent.build_messages. rewrite fold_left_append. reflexivity.
Qed.

(** Every run of [ask] makes exactly one call to the provider, whatever
    the provider answers. *)
Lemma geo_ask_sent MODEL_NAME API_BASE completion json_loads query history w :
  sent (snd (GeoAgent.ask MODEL_NAME API_BASE completion json_loads query history w))
  = sent w ++ [GeoAgent.outbound MODEL_NAME API_BASE query history].
Proof.
  unfold GeoAgent.ask, try_except, GeoAgent.ask_body, bind, call_completion, lift,
    GeoAgent.outbound.
  destruct (completion _) as [[e | cls msg] | resp]; [reflexivity | reflexivity |].
  destruct (index0 (choices resp)) as [e | m]; [reflexivity |].
  destruct (msg_tool_calls m) as [[| tc rest] |]; try reflexivity.
  cbv zeta.
  destruct (dict_get (tc_name tc) GeoAgent.tools) as [f |]; [| reflexivity].
  destruct (call_spread f _); reflexivity.
Qed.

Lemma hello_ask_sent MODEL_NAME BASE_URL completion json_loads greet query w :
  sent (snd (HelloWorldAgent.ask MODEL_NAME BASE_URL completion json_loads greet query w))
  = sent w ++ [HelloWorldAgent.outbound MODEL_NAME BASE_URL query].
Proof.
  unfold HelloWorldAgent.ask, try_except, HelloWorldAgent.ask_body, bind,
    call_completion, lift, HelloWorldAgent.outbound.
  destruct (completion _) as [[e | cls msg] | resp]; [reflexivity | reflexivity |].
  destruct (index0 (choices resp)) as [e | m]; [reflexivity |].
  destruct (msg_tool_calls m) as [[| tc rest] |]; try reflexivity.
  cbv zeta.
  destruct (dict_get (tc_name tc) _) as [f |]; [| reflexivity].
  destruct (call_spread f _); reflexivity.
Qed.

(** C6: for every query and every history, the one request [ask] sends to
    the completion provider carries the system-prompt message, then the
    history as given and in its order, then one user message holding the
    query; for the history (user hi, assistant hello) and the query
    zoom in, that is system, user hi, assistant hello, user zoom in. *)
Theorem ask_outbound_messages :
  (forall MODEL_NAME API_BASE completion json_loads query history w,
     map req_messages
       (sent (snd (GeoAgent.ask MODEL_NAME API_BASE completion json_loads
                     query history w)))
     = map req_messages (sent w)
       ++ [ PDict [("role", PStr "system"); ("content", PStr GeoAgent.system_prompt)]
            :: history
            ++ [PDict [("role", PStr "user"); ("content", PStr query)]] ])
  /\ (forall MODEL_NAME API_BASE completion json_loads,
        map req_messages
          (sent (snd (GeoAgent.ask MODEL_NAME API_BASE completion json_loads
                        "zoom in"
                        [ PDict [("role", PStr "user"); ("content", PStr "hi")];
                          PDict [("role", PStr "assistant"); ("content", PStr "hello")] ]
                        (mk_world [] []))))
        = [ [ PDict [("role", PStr "system"); ("content", PStr GeoAgent.system_prompt)];
              PDict [("role", PStr "user"); ("content", PStr "hi")];
              PDict [("role", PStr "assistant"); ("content", PStr "hello")];
              PDict [("role", PStr "user"); ("content", PStr "zoom in")] ] ]).
Proof.
  split; intros; rewrite geo_ask_sent, map_app; unfold GeoAgent.outbound;
    simpl; rewrite build_messages_eq; reflexivity.
Qed.

(** ** What [ask] returns *)

(** The result of a run once the provider has answered with a first
    choice: the three outcomes of the response policy. *)
Lemma geo_ask_answered MODEL_NAME API_BASE completion json_loads query history w
    resp m ms :
  completion (GeoAgent.outbound MODEL_NAME API_BASE query history) = inr resp ->
  choices resp = m :: ms ->
  fst (GeoAgent.ask MODEL_NAME API_BASE completion json_loads query history w)
  = inr match msg_tool_calls m with
        | None | Some [] => GeoAgent.chat_response (msg_content m)
        | Some (tc :: _) =>
            match dict_get (tc_name tc) GeoAgent.tools with
            | Some f =>
                geo_handled
                  (call_spread f (loads_or_empty json_loads
                                    (or_empty_object (tc_arguments tc))))
            | None => GeoAgent.error_result ("Tool '" ++ tc_name tc ++ "' not found.")
            end
        end.
Proof.
  intros Hc Hm.
  unfold GeoAgent.ask, try_except, GeoAgent.ask_body, bind, call_completion, lift.
  unfold GeoAgent.outbound in Hc. rewrite Hc, Hm. cbn [index0].
  destruct (msg_tool_calls m) as [[| tc rest] |]; try reflexivity.
  cbv zeta.
  destruct (dict_get (tc_name tc) GeoAgent.tools) as [f |]; [| reflexivity].
  destruct (call_spread f _); reflexivity.
Qed.

Lemma hello_ask_answered MODEL_NAME BASE_URL completion json_loads greet query w
    resp m ms :
  completion (HelloWorldAgent.outbound MODEL_NAME BASE_URL query) = inr resp ->
  choices resp = m :: ms ->
  fst (HelloWorldAgent.ask MODEL_NAME BASE_URL completion json_loads greet query w)
  = inr match msg_tool_calls m with
        | None | Some [] => HelloWorldAgent.reply (of_opt_str (msg_content m))
        | Some (tc :: _) =>
            match dict_get (tc_name tc) (HelloWorldAgent.tool_functions greet) with
            | Some f =>
                hello_handled
                  (call_spread f (loads_or_empty json_loads
                                    (or_empty_object (tc_arguments tc))))
            | None =>
                HelloWorldAgent.reply
                  (PStr ("Error: Tool '" ++ tc_name tc ++ "' not found."))
            end
        end.
Proof.
  intros Hc Hm.
  unfold HelloWorldAgent.ask, try_except, HelloWorldAgent.ask_body, bind,
    call_completion, lift.
  unfold HelloWorldAgent.outbound in Hc. rewrite Hc, Hm. cbn [index0].
  destruct (msg_tool_calls m) as [[| tc rest] |]; try reflexivity.
  cbv zeta.
  destruct (dict_get (tc_name tc) _) as [f |]; [| reflexivity].
  destruct (call_spread f _); reflexivity.
Qed.







(** C1: when the provider's response holds no tool selection, [ask]
    returns the plain-text result built from the free-text content of the
    response: action chat_response with payload message in the map agent,
    the single key response in the greeting agent. *)
Theorem ask_plain_reply MODEL_NAME API_BASE completion json_loads greet
    query history w resp m ms :
  completion (GeoAgent.outbound MODEL_NAME API_BASE query history) = inr resp ->
  completion (HelloWorldAgent.outbound MODEL_NAME API_BASE query) = inr resp ->
  choices resp = m :: ms ->
  no_tool_selection m ->
  fst (GeoAgent.ask MODEL_NAME API_BASE completion json_loads query history w)
  = inr (PDict [("action", PStr "chat_response");
                ("payload", PDict [("message", of_opt_str (msg_content m))])])
  /\ fst (HelloWorldAgent.ask MODEL_NAME API_BASE completion json_loads greet query w)
     = inr (PDict [("response", of_opt_str (msg_content m))]).
Proof.
  intros Hg Hh Hm Hno. split.
  - rewrite (geo_ask_answered _ _ _ _ _ _ _ _ _ _ Hg Hm).
    destruct Hno as [-> | ->]; reflexivity.
  - rewrite (hello_ask_answered _ _ _ _ _ _ _ _ _ _ Hh Hm).
    destruct Hno as [-> | ->]; reflexivity.
Qed.

(** C2: when the response selects zoom_to with the argument text of an
    object whose member zoom is 5, the map agent returns exactly action
    zoom_to with payload zoom 5. *)
Theorem ask_zoom_to_5 MODEL_NAME API_BASE completion json_loads query history w
    resp m ms rest :
  completion (GeoAgent.outbound MODEL_NAME API_BASE query history) = inr resp ->
  choices resp = m :: ms ->
  msg_tool_calls m = Some (mk_tool_call "zoom_to" (Some zoom_5_text) :: rest) ->
  json_loads zoom_5_text = inr (PDict [("zoom", PInt 5)]) ->
  fst (GeoAgent.ask MODEL_NAME API_BASE completion json_loads query history w)
  = inr (PDict [("action", PStr "zoom_to"); ("payload", PDict [("zoom", PInt 5)])]).
Proof.
  intros Hc Hm Htc Hj.
  rewrite (geo_ask_answered _ _ _ _ _ _ _ _ _ _ Hc Hm), Htc.
  cbn [tc_name tc_arguments].
  change (or_empty_object (Some zoom_5_text)) with zoom_5_text.
  unfold loads_or_empty. rewrite Hj. reflexivity.
Qed.

(** C3: when the response selects an identifier that is not in the
    catalog of the agent that runs, [ask] returns an error result (it does
    not raise) whose message holds that identifier; each agent against
    its own catalog. *)
Theorem ask_unknown_tool MODEL_NAME API_BASE completion json_loads greet
    query history w resp m ms tc rest :
  choices resp = m :: ms ->
  msg_tool_calls m = Some (tc :: rest) ->
  (completion (GeoAgent.outbound MODEL_NAME API_BASE query history) = inr resp ->
   dict_mem (tc_name tc) GeoAgent.tools = false ->
   exists text,
     fst (GeoAgent.ask MODEL_NAME API_BASE completion json_loads query history w)
     = inr (PDict [("action", PStr "error");
                   ("payload", PDict [("message", PStr text)])])
     /\ text = ("Tool '" ++ tc_name tc ++ "' not found.")%string
     /\ occurs_in (tc_name tc) text)
  /\ (completion (HelloWorldAgent.outbound MODEL_NAME API_BASE query) = inr resp ->
      dict_mem (tc_name tc) (HelloWorldAgent.tool_functions greet) = false ->
      exists text,
        fst (HelloWorldAgent.ask MODEL_NAME API_BASE completion json_loads greet
               query w)
        = inr (PDict [("response", PStr text)])
        /\ text = ("Error: Tool '" ++ tc_name tc ++ "' not found.")%string
        /\ occurs_in (tc_name tc) text
        /\ occurs_in "Error" text).
Proof.
  intros Hm Htc. split.
  - intros Hg Hgeo.
    exists ("Tool '" ++ tc_name tc ++ "' not found.")%string.
    rewrite (geo_ask_answered _ _ _ _ _ _ _ _ _ _ Hg Hm), Htc.
    unfold dict_mem in Hgeo.
    destruct (dict_get (tc_name tc) GeoAgent.tools); [discriminate |].
    repeat split. exists "Tool '", "' not found.". reflexivity.
  - intros Hh Hhello.
    exists ("Error: Tool '" ++ tc_name tc ++ "' not found.")%string.
    rewrite (hello_ask_answered _ _ _ _ _ _ _ _ _ _ Hh Hm), Htc.
    unfold dict_mem in Hhello.
    destruct (dict_get (tc_name tc) (HelloWorldAgent.tool_functions greet));
      [discriminate |].
    repeat split.
    + exists "Error: Tool '", "' not found.". reflexivity.
    + exists EmptyString, (": Tool '" ++ tc_name tc ++ "' not found.")%string.
      reflexivity.
Qed.

(** C5: when the response selects a tool and its argument text is not
    well-formed JSON, or is missing, [ask] goes on with the empty argument
    set: a tool of the catalog is called with no arguments, and what that
    call gives is the result of the request. *)
Theorem ask_malformed_arguments MODEL_NAME API_BASE completion json_loads greet
    query history w resp m ms tc rest :
  completion (GeoAgent.outbound MODEL_NAME API_BASE query history) = inr resp ->
  completion (HelloWorldAgent.outbound MODEL_NAME API_BASE query) = inr resp ->
  choices resp = m :: ms ->
  msg_tool_calls m = Some (tc :: rest) ->
  malformed_or_missing json_loads tc ->
  fst (GeoAgent.ask MODEL_NAME API_BASE completion json_loads query history w)
  = inr match dict_get (tc_name tc) GeoAgent.tools with
        | Some tool_function => geo_handled (call_kwargs tool_function [])
        | None => GeoAgent.error_result ("Tool '" ++ tc_name tc ++ "' not found.")
        end
  /\ fst (HelloWorldAgent.ask MODEL_NAME API_BASE completion json_loads greet query w)
     = inr match dict_get (tc_name tc) (HelloWorldAgent.tool_functions greet) with
           | Some tool_function => hello_handled (call_kwargs tool_function [])
           | None =>
               HelloWorldAgent.reply
                 (PStr ("Error: Tool '" ++ tc_name tc ++ "' not found."))
           end.
Proof.
  intros Hg Hh Hm Htc Hbad.
  assert (Hargs : loads_or_empty json_loads (or_empty_object (tc_arguments tc))
                  = PDict []).
  { unfold loads_or_empty.
    destruct Hbad as [[e He] | [Hnone Hempty]].
    - rewrite He. reflexivity.
    - unfold or_empty_object. rewrite Hnone, Hempty. reflexivity. }
  rewrite (geo_ask_answered _ _ _ _ _ _ _ _ _ _ Hg Hm),
          (hello_ask_answered _ _ _ _ _ _ _ _ _ _ Hh Hm), Htc, Hargs.
  split; reflexivity.
Qed.

(** C7: when the response proposes several tool calls, the first one is
    honoured and it alone: the result is the outcome of dispatching the
    first call (the tool of that name called with the arguments of that
    call, or the not-found error), and any other response whose list
    starts with the same call gives the same result and the same effects,
    whatever follows it. *)
Theorem ask_first_tool_call_only MODEL_NAME API_BASE completion json_loads greet
    query history w resp m ms tc rest :
  choices resp = m :: ms ->
  msg_tool_calls m = Some (tc :: rest) ->
  (completion (GeoAgent.outbound MODEL_NAME API_BASE query history) = inr resp ->
   fst (GeoAgent.ask MODEL_NAME API_BASE completion json_loads query history w)
   = inr match dict_get (tc_name tc) GeoAgent.tools with
         | Some tool_function =>
             geo_handled
               (call_spread tool_function
                  (loads_or_empty json_loads (or_empty_object (tc_arguments tc))))
         | None => GeoAgent.error_result ("Tool '" ++ tc_name tc ++ "' not found.")
         end
   /\ forall completion' resp' m' ms' rest',
        completion' (GeoAgent.outbound MODEL_NAME API_BASE query history) = inr resp' ->
        choices resp' = m' :: ms' ->
        msg_tool_calls m' = Some (tc :: rest') ->
        GeoAgent.ask MODEL_NAME API_BASE completion json_loads query history w
        = GeoAgent.ask MODEL_NAME API_BASE completion' json_loads query history w)
  /\ (completion (HelloWorldAgent.outbound MODEL_NAME API_BASE query) = inr resp ->
      fst (HelloWorldAgent.ask MODEL_NAME API_BASE completion json_loads greet query w)
      = inr match dict_get (tc_name tc) (HelloWorldAgent.tool_functions greet) with
            | Some tool_function =>
                hello_handled
                  (call_spread tool_function
                     (loads_or_empty json_loads (or_empty_object (tc_arguments tc))))
            | None =>
                HelloWorldAgent.reply
                  (PStr ("Error: Tool '" ++ tc_name tc ++ "' not found."))
            end
      /\ forall completion' resp' m' ms' rest',
           completion' (HelloWorldAgent.outbound MODEL_NAME API_BASE query) = inr resp' ->
           choices resp' = m' :: ms' ->
           msg_tool_calls m' = Some (tc :: rest') ->
           HelloWorldAgent.ask MODEL_NAME API_BASE completion json_loads greet query w
           = HelloWorldAgent.ask MODEL_NAME API_BASE completion' json_loads greet
               query w).
Proof.
  intros Hm Htc. split.
  - intros Hg. split.
    + now rewrite (geo_ask_answered _ _ _ _ _ _ _ _ _ _ Hg Hm), Htc.
    + intros completion' resp' m' ms' rest' Hg' Hm' Htc'.
      unfold GeoAgent.ask, try_except, GeoAgent.ask_body, bind, call_completion, lift.
      unfold GeoAgent.outbound in Hg, Hg'.
      rewrite Hg, Hg', Hm, Hm'. cbn [index0]. rewrite Htc, Htc'. reflexivity.
  - intros Hh. split.
    + now rewrite (hello_ask_answered _ _ _ _ _ _ _ _ _ _ Hh Hm), Htc.
    + intros completion' resp' m' ms' rest' Hh' Hm' Htc'.
      unfold HelloWorldAgent.ask, try_except, HelloWorldAgent.ask_body, bind,
        call_completion, lift.
      unfold HelloWorldAgent.outbound in Hh, Hh'.
      rewrite Hh, Hh', Hm, Hm'. cbn [index0]. rewrite Htc, Htc'. reflexivity.
Qed.

(** ** The catalog of the map agent *)

(** Every implementation of the table, given one value per parameter,
    returns the instruction tagged with its own identifier whose payload
    binds the parameter names to those values. *)
Lemma tools_body n f :
  In (n, f) GeoAgent.tools ->
  forall vs, length vs = length (fn_params f) ->
    fn_body f vs
    = inr (PDict [("action", PStr n);
                  ("payload", PDict (combine (param_names f) vs))]).
Proof.
  intros Hin vs Hlen.
  unfold GeoAgent.tools in Hin. simpl in Hin.
  repeat (destruct Hin as [Hin | Hin];
          [ injection Hin as <- <-; simpl in Hlen;
            repeat (destruct vs as [| ? vs]; try discriminate Hlen);
            reflexivity
          | ]).
  contradiction.
Qed.

(** The same through a keyword call: a call that succeeds returns the
    instruction whose payload binds every parameter, to the keyword's
    value or to the default. *)
Lemma tools_call n f kwargs r :
  In (n, f) GeoAgent.tools ->
  call_kwargs f kwargs = inr r ->
  r = PDict [("action", PStr n);
             ("payload", PDict (combine (param_names f) (bind_params f kwargs)))].
Proof.
  intros Hin Hcall. unfold call_kwargs in Hcall.
  destruct (check_keywords f kwargs); [discriminate |].
  destruct (missing_params f kwargs); [| discriminate].
  rewrite (tools_body n f Hin) in Hcall.
  - now injection Hcall as <-.
  - unfold bind_params. now rewrite length_map.
Qed.

(** C8: the table of the map agent holds exactly the eleven tools
    fly_to, zoom_to, add_basemap, add_cog_layer, add_vector, remove_layer,
    get_layer_names, set_terrain, remove_terrain, set_pitch and
    set_opacity, with the stated parameter names and defaults, and each
    implementation returns the instruction tagged with its identifier
    whose payload holds the named arguments. *)
Theorem tool_catalog_contents :
  map (fun entry => (fst entry, fn_params (snd entry))) GeoAgent.tools
  = [ ("fly_to", [("longitude", None); ("latitude", None); ("zoom", Some (PInt 12))]);
      ("zoom_to", [("zoom", None)]);
      ("add_basemap", [("name", None)]);
      ("add_cog_layer", [("url", None); ("name", Some PNone);
                         ("opacity", Some (PFloat float_1_0));
                         ("bands", Some PNone)]);
      ("add_vector", [("data", None); ("name", Some PNone)]);
      ("remove_layer", [("name", None)]);
      ("get_layer_names", []);
      ("set_terrain", [("exaggeration", Some (PFloat float_1_0))]);
      ("remove_terrain", []);
      ("set_pitch", [("pitch", None)]);
      ("set_opacity", [("name", None); ("opacity", None)]) ]
  /\ length GeoAgent.tools = 11
  /\ (forall n f, In (n, f) GeoAgent.tools ->
        forall vs, length vs = length (fn_params f) ->
          fn_body f vs
          = inr (PDict [("action", PStr n);
                        ("payload", PDict (combine (param_names f) vs))])).
Proof.
  split; [reflexivity |]. split; [reflexivity |]. exact tools_body.
Qed.

(** C9: every identifier of the table of the map agent has an
    implementation, and the schema list holds exactly one schema for it,
    whose required names are the parameters without default of that
    implementation; no schema advertises an identifier outside the table. *)
Theorem tool_schemas_match_table :
  (forall n, In n (dict_keys GeoAgent.tools) ->
     exists f spec,
       dict_get n GeoAgent.tools = Some f
       /\ specs_named n GeoAgent.tool_specs = [spec]
       /\ (forall p, In p (spec_required spec) <-> In p (required_params f)))
  /\ (forall spec, In spec GeoAgent.tool_specs ->
        exists n, spec_name spec = Some n /\ In n (dict_keys GeoAgent.tools))
  /\ length GeoAgent.tool_specs = length GeoAgent.tools.
Proof.
  split; [| split; [| reflexivity]].
  - intros n Hin. unfold GeoAgent.tools in Hin. simpl in Hin.
    repeat (destruct Hin as [<- | Hin];
            [ eexists; eexists; split; [reflexivity |];
              split; [reflexivity |];
              intros p; vm_compute; tauto
            | ]).
    contradiction.
  - intros spec Hin. unfold GeoAgent.tool_specs in Hin.
    repeat (destruct Hin as [<- | Hin];
            [ eexists; split; [reflexivity | vm_compute; tauto] | ]).
    contradiction.
Qed.

(** C10: in the map agent the keys of a tool's payload do not depend on
    the arguments supplied: a call that succeeds returns a payload whose
    keys are the parameter names, and a parameter with a default that the
    caller leaves out is bound to that default, null for the optional
    ones; add_vector with data alone yields data and a null name, and
    add_cog_layer with url alone yields url, a null name, opacity 1.0
    and null bands. *)
Theorem payload_keys_fixed :
  (forall n f kwargs r,
     In (n, f) GeoAgent.tools ->
     call_kwargs f kwargs = inr r ->
     exists payload,
       r = PDict [("action", PStr n); ("payload", PDict payload)]
       /\ dict_keys payload = param_names f
       /\ (forall p d, In (p, Some d) (fn_params f) ->
              dict_mem p kwargs = false -> dict_get p payload = Some d))
  /\ (forall data,
        call_kwargs MapTools.add_vector_m [("data", data)]
        = inr (PDict [("action", PStr "add_vector");
                      ("payload", PDict [("data", data); ("name", PNone)])]))
  /\ (forall url,
        call_kwargs MapTools.add_cog_layer_m [("url", url)]
        = inr (PDict [("action", PStr "add_cog_layer");
                      ("payload", PDict [("url", url); ("name", PNone);
                                         ("opacity", PFloat float_1_0);
                                         ("bands", PNone)])])).
Proof.
  split; [| split; reflexivity].
  intros n f kwargs r Hin Hcall.
  exists (combine (param_names f) (bind_params f kwargs)).
  split; [exact (tools_call n f kwargs r Hin Hcall) |].
  clear Hcall r. unfold GeoAgent.tools in Hin. simpl in Hin.
  repeat (destruct Hin as [Hin | Hin];
          [ injection Hin as <- <-; split; [reflexivity |];
            intros p d Hp Hmem; simpl in Hp;
            repeat (destruct Hp as [Hp | Hp];
                    [ first [ discriminate Hp
                            | injection Hp as <- <-;
                              unfold dict_mem in Hmem; simpl;
                              unfold bind_param; simpl;
                              destruct (dict_get _ kwargs);
                              [discriminate | reflexivity] ]
                    | ]);
            contradiction
          | ]).
  contradiction.
Qed.

(** ** Failures *)



(** ** Concrete runs *)

(** A plain reply. *)
Lemma ask_plain_reply_run :
  no_tool_selection (mk_message (Some "Hello there") None)
  /\ fst (GeoAgent.ask "ollama/llama3.1" None
            (stub (inr (single_choice (Some "Hello there") None)))
            Json.json_decode "hi" [] world0)
     = inr (PDict [("action", PStr "chat_response");
                   ("payload", PDict [("message", PStr "Hello there")])])
  /\ fst (HelloWorldAgent.ask "ollama/llama3.1" None
            (stub (inr (single_choice (Some "Hello there") None)))
            Json.json_decode greet_sample "hi" world0)
     = inr (PDict [("response", PStr "Hello there")]).
Proof.
  split; [left; reflexivity |].
  apply (ask_plain_reply "ollama/llama3.1" None
           (stub (inr (single_choice (Some "Hello there") None)))
           Json.json_decode greet_sample "hi" [] world0
           (single_choice (Some "Hello there") None)
           (mk_message (Some "Hello there") None) []);
    [reflexivity | reflexivity | reflexivity | left; reflexivity].
Defined.

(** The zoom example, decoded by [json_decode]. *)
Lemma ask_zoom_to_5_run :
  Json.json_decode zoom_5_text = inr (PDict [("zoom", PInt 5)])
  /\ fst (GeoAgent.ask "ollama/llama3.1" None
            (stub (inr (single_choice None
                          (Some [mk_tool_call "zoom_to" (Some zoom_5_text)]))))
            Json.json_decode "zoom to level 5" [] world0)
     = inr (PDict [("action", PStr "zoom_to"); ("payload", PDict [("zoom", PInt 5)])]).
Proof.
  split; [vm_compute; reflexivity |].
  apply (ask_zoom_to_5 "ollama/llama3.1" None
           (stub (inr (single_choice None
                         (Some [mk_tool_call "zoom_to" (Some zoom_5_text)]))))
           Json.json_decode "zoom to level 5" [] world0
           (single_choice None (Some [mk_tool_call "zoom_to" (Some zoom_5_text)]))
           (mk_message None (Some [mk_tool_call "zoom_to" (Some zoom_5_text)]))
           [] []);
    [reflexivity | reflexivity | reflexivity | vm_compute; reflexivity].
Defined.

(** The unregistered identifier teleport, in both agents; greet selected
    in the map agent; zoom_to selected in the greeting agent. *)
Lemma ask_unknown_tool_run :
  (fst (GeoAgent.ask "ollama/llama3.1" None (selects "teleport" "{}")
          Json.json_decode "beam me up" [] world0)
   = inr (PDict [("action", PStr "error");
                 ("payload", PDict [("message", PStr "Tool 'teleport' not found.")])])
   /\ fst (HelloWorldAgent.ask "ollama/llama3.1" None (selects "teleport" "{}")
             Json.json_decode greet_sample "beam me up" world0)
      = inr (PDict [("response", PStr "Error: Tool 'teleport' not found.")]))
  /\ fst (GeoAgent.ask "ollama/llama3.1" None (selects "greet" "{}")
            Json.json_decode "say hello" [] world0)
     = inr (PDict [("action", PStr "error");
                   ("payload", PDict [("message", PStr "Tool 'greet' not found.")])])
  /\ fst (HelloWorldAgent.ask "ollama/llama3.1" None (selects "zoom_to" zoom_5_text)
            Json.json_decode greet_sample "zoom" world0)
     = inr (PDict [("response", PStr "Error: Tool 'zoom_to' not found.")]).
Proof.
  pose proof (fun name arguments =>
                ask_unknown_tool "ollama/llama3.1" None (selects name arguments)
                  Json.json_decode greet_sample "beam me up" [] world0
                  (single_choice None (Some [mk_tool_call name (Some arguments)]))
                  (mk_message None (Some [mk_tool_call name (Some arguments)])) []
                  (mk_tool_call name (Some arguments)) []
                  eq_refl eq_refl) as H.
  split; [split |]; [| | split].
  - destruct (proj1 (H "teleport" "{}") eq_refl eq_refl) as [text [Hr [-> _]]].
    exact Hr.
  - destruct (proj2 (H "teleport" "{}") eq_refl eq_refl) as [text [Hr [-> _]]].
    exact Hr.
  - destruct (proj1 (H "greet" "{}") eq_refl eq_refl) as [text [Hr [-> _]]].
    exact Hr.
  - destruct (proj2 (H "zoom_to" zoom_5_text) eq_refl eq_refl) as [text [Hr [-> _]]].
    exact Hr.
Defined.


(** Argument text that is not JSON: get_layer_names is called with no
    arguments and succeeds; the greeting agent has no such tool. *)
Lemma ask_malformed_arguments_run :
  malformed_or_missing Json.json_decode (mk_tool_call "get_layer_names" (Some "not json"))
  /\ fst (GeoAgent.ask "ollama/llama3.1" None
            (stub (inr (single_choice None
                          (Some [mk_tool_call "get_layer_names" (Some "not json")]))))
            Json.json_decode "list the layers" [] world0)
     = inr (PDict [("action", PStr "get_layer_names"); ("payload", PDict [])])
  /\ fst (HelloWorldAgent.ask "ollama/llama3.1" None
            (stub (inr (single_choice None
                          (Some [mk_tool_call "get_layer_names" (Some "not json")]))))
            Json.json_decode greet_sample "list the layers" world0)
     = inr (PDict [("response", PStr "Error: Tool 'get_layer_names' not found.")]).
Proof.
  assert (Hbad : malformed_or_missing Json.json_decode
                   (mk_tool_call "get_layer_names" (Some "not json"))).
  { left. eexists. vm_compute. reflexivity. }
  split; [exact Hbad |].
  apply (ask_malformed_arguments "ollama/llama3.1" None
           (stub (inr (single_choice None
                         (Some [mk_tool_call "get_layer_names" (Some "not json")]))))
           Json.json_decode greet_sample "list the layers" [] world0
           (single_choice None (Some [mk_tool_call "get_layer_names" (Some "not json")]))
           (mk_message None (Some [mk_tool_call "get_layer_names" (Some "not json")]))
           [] (mk_tool_call "get_layer_names" (Some "not json")) []);
    [reflexivity | reflexivity | reflexivity | reflexivity | exact Hbad].
Defined.

(** Two tool calls proposed, zoom_to and remove_terrain: the result is the
    zoom instruction, as for the first call alone. *)
Lemma ask_first_tool_call_only_run :
  fst (GeoAgent.ask "ollama/llama3.1" None
         (stub (inr (single_choice None
                       (Some [mk_tool_call "zoom_to" (Some zoom_5_text);
                              mk_tool_call "remove_terrain" None]))))
         Json.json_decode "zoom" [] world0)
  = inr (PDict [("action", PStr "zoom_to"); ("payload", PDict [("zoom", PInt 5)])])
  /\ GeoAgent.ask "ollama/llama3.1" None
       (stub (inr (single_choice None
                     (Some [mk_tool_call "zoom_to" (Some zoom_5_text);
                            mk_tool_call "remove_terrain" None]))))
       Json.json_decode "zoom" [] world0
     = GeoAgent.ask "ollama/llama3.1" None (selects "zoom_to" zoom_5_text)
         Json.json_decode "zoom" [] world0.
Proof.
  destruct (proj1 (ask_first_tool_call_only "ollama/llama3.1" None
                     (stub (inr (single_choice None
                                   (Some [mk_tool_call "zoom_to" (Some zoom_5_text);
                                          mk_tool_call "remove_terrain" None]))))
                     Json.json_decode greet_sample "zoom" [] world0
                     (single_choice None
                        (Some [mk_tool_call "zoom_to" (Some zoom_5_text);
                               mk_tool_call "remove_terrain" None]))
                     (mk_message None
                        (Some [mk_tool_call "zoom_to" (Some zoom_5_text);
                               mk_tool_call "remove_terrain" None]))
                     [] (mk_tool_call "zoom_to" (Some zoom_5_text))
                     [mk_tool_call "remove_terrain" None] eq_refl eq_refl)
              eq_refl) as [Hfirst Hsame].
  split; [exact Hfirst |].
  apply (Hsame (selects "zoom_to" zoom_5_text)
           (single_choice None (Some [mk_tool_call "zoom_to" (Some zoom_5_text)]))
           (mk_message None (Some [mk_tool_call "zoom_to" (Some zoom_5_text)]))
           [] []);
    reflexivity.
Defined.

(** The body of zoom_to on the value 5. *)
Lemma tool_catalog_contents_run :
  In ("zoom_to", MapTools.zoom_to_m) GeoAgent.tools
  /\ fn_body MapTools.zoom_to_m [PInt 5]
     = inr (PDict [("action", PStr "zoom_to"); ("payload", PDict [("zoom", PInt 5)])]).
Proof.
  assert (Hin : In ("zoom_to", MapTools.zoom_to_m) GeoAgent.tools)
    by (right; left; reflexivity).
  split; [exact Hin |].
  apply (proj2 (proj2 tool_catalog_contents) "zoom_to" MapTools.zoom_to_m Hin [PInt 5]).
  reflexivity.
Defined.

(** The schema of fly_to: it requires longitude and latitude, as the
    implementation does. *)
Lemma tool_schemas_match_table_run :
  In "fly_to" (dict_keys GeoAgent.tools)
  /\ exists f spec,
       dict_get "fly_to" GeoAgent.tools = Some f
       /\ specs_named "fly_to" GeoAgent.tool_specs = [spec]
       /\ (forall p, In p (spec_required spec) <-> In p (required_params f)).
Proof.
  assert (Hin : In "fly_to" (dict_keys GeoAgent.tools)) by (left; reflexivity).
  split; [exact Hin |].
  exact (proj1 tool_schemas_match_table "fly_to" Hin).
Defined.

(** fly_to without zoom: the payload still has the key, bound to 12. *)
Lemma payload_keys_fixed_run :
  In ("fly_to", MapTools.fly_to_m) GeoAgent.tools
  /\ call_kwargs MapTools.fly_to_m [("longitude", PInt 2); ("latitude", PInt 48)]
     = inr (PDict [("action", PStr "fly_to");
                   ("payload", PDict [("longitude", PInt 2); ("latitude", PInt 48);
                                      ("zoom", PInt 12)])])
  /\ exists payload,
       PDict [("action", PStr "fly_to");
              ("payload", PDict [("longitude", PInt 2); ("latitude", PInt 48);
                                 ("zoom", PInt 12)])]
       = PDict [("action", PStr "fly_to"); ("payload", PDict payload)]
       /\ dict_keys payload = param_names MapTools.fly_to_m
       /\ (forall p d, In (p, Some d) (fn_params MapTools.fly_to_m) ->
              dict_mem p [("longitude", PInt 2); ("latitude", PInt 48)] = false ->
              dict_get p payload = Some d).
Proof.
  assert (Hin : In ("fly_to", MapTools.fly_to_m) GeoAgent.tools)
    by (left; reflexivity).
  split; [exact Hin |]. split; [reflexivity |].
  apply (proj1 payload_keys_fixed "fly_to" MapTools.fly_to_m
           [("longitude", PInt 2); ("latitude", PInt 48)] _ Hin).
  reflexivity.
Defined.

(** fly_to with argument text that is not JSON: the call with no
    arguments misses its two required parameters, and the request ends in
    an error result that says so. *)
Example ask_fly_to_malformed :
  fst (GeoAgent.ask "ollama/llama3.1" None
         (stub (inr (single_choice None
                       (Some [mk_tool_call "fly_to" (Some "{longitude: 2")]))))
         Json.json_decode "fly to Paris" [] world0)
  = inr (PDict [("action", PStr "error");
                ("payload",
                 PDict [("message",
                         PStr ("MapTools.fly_to() missing 2 required positional "
                               ++ "arguments: 'longitude' and 'latitude'"))])]).
Proof. vm_compute. reflexivity. Qed.

(** A keyword the tool does not know ends in an error result too. *)
Example ask_zoom_to_unexpected_keyword :
  fst (GeoAgent.ask "ollama/llama3.1" None
         (stub (inr (single_choice None
                       (Some [mk_tool_call "zoom_to"
                                (Some ("{" ++ Json.quoted "level" ++ ": 5}")%string)]))))
         Json.json_decode "zoom" [] world0)
  = inr (PDict [("action", PStr "error");
                ("payload",
                 PDict [("message",
                         PStr ("MapTools.zoom_to() got an unexpected keyword "
                               ++ "argument 'level'"))])]).
Proof. vm_compute. reflexivity. Qed.

(** A run leaves one request behind and, on failure, one printed line. *)
Example ask_failure_world :
  snd (GeoAgent.ask "ollama/llama3.1" (Some "http://localhost:11434")
         (stub (inl (Exc (Raised "ConnectionError" "boom"))))
         Json.json_decode "zoom in" [] world0)
  = mk_world
      [mk_request "ollama/llama3.1"
         [ PDict [("role", PStr "system"); ("content", PStr GeoAgent.system_prompt)];
           PDict [("role", PStr "user"); ("content", PStr "zoom in")] ]
         GeoAgent.tool_specs
         [("api_base", PStr "http://localhost:11434")]]
      ["An error occurred: boom"].
Proof. reflexivity. Qed.

(** * Further properties *)

(** ** Dictionaries and keyword calls *)

Lemma dict_mem_In {A : Type} (k : string) (d : list (string * A)) :
  dict_mem k d = true <-> In k (dict_keys d).
Proof.
  unfold dict_mem. induction d as [| [k' v] d IH]; simpl.
  - split; [discriminate | contradiction].
  - destruct (String.eqb_spec k k') as [-> | Hne].
    + split; [now left | reflexivity].
    + rewrite IH. split; [now right |].
      intros [Heq | Hin]; [now symmetry in Heq | exact Hin].
Qed.

Lemma dict_get_In {A : Type} (k : string) (v : A) (d : list (string * A)) :
  dict_get k d = Some v -> In (k, v) d.
Proof.
  induction d as [| [k' v'] d IH]; simpl; [discriminate |].
  destruct (String.eqb_spec k k') as [-> | Hne].
  - intros H. injection H as ->. now left.
  - intros H. right. now apply IH.
Qed.

(** The first pass lets a call through exactly when every keyword names
    a parameter. *)
Lemma check_keywords_None (f : pyfunc) (kwargs : list (string * pyval)) :
  check_keywords f kwargs = None
  <-> (forall k, In k (dict_keys kwargs) -> In k (param_names f)).
Proof.
  unfold param_names. induction kwargs as [| [k v] kwargs IH]; simpl.
  - split; [contradiction | reflexivity].
  - destruct (dict_mem k (fn_params f)) eqn:Hmem.
    + rewrite IH. split.
      * intros H k' [<- | Hin]; [now apply dict_mem_In | now apply H].
      * intros H k' Hin. apply H. now right.
    + split.
      * destruct (fn_self f && String.eqb k "self"); discriminate.
      * intros H. assert (Hk : In k (dict_keys (fn_params f))) by (apply H; now left).
        apply dict_mem_In in Hk. congruence.
Qed.

(** The second pass finds nothing missing exactly when every parameter
    without default has a keyword. *)
Lemma missing_params_nil (f : pyfunc) (kwargs : list (string * pyval)) :
  missing_params f kwargs = []
  <-> (forall p, In p (required_params f) -> In p (dict_keys kwargs)).
Proof.
  unfold missing_params. induction (required_params f) as [| p ps IH]; simpl.
  - split; [contradiction | reflexivity].
  - destruct (dict_mem p kwargs) eqn:Hmem; simpl.
    + rewrite IH. split.
      * intros H p' [<- | Hin]; [now apply dict_mem_In | now apply H].
      * intros H p' Hin. apply H. now right.
    + split; [discriminate |].
      intros H. assert (Hp : In p (dict_keys kwargs)) by (apply H; now left).
      apply dict_mem_In in Hp. congruence.
Qed.

(** A supplied keyword reaches the body unchanged. *)
Lemma dict_get_bound (ps : list (string * option pyval))
    (kwargs : list (string * pyval)) (p : string) (v : pyval) :
  dict_get p kwargs = Some v ->
  In p (dict_keys ps) ->
  dict_get p (combine (dict_keys ps) (map (bind_param kwargs) ps)) = Some v.
Proof.
  intros Hget. induction ps as [| [k d] ps IH]; simpl; [contradiction |].
  intros Hin. destruct (String.eqb_spec p k) as [-> | Hne].
  - unfold bind_param. simpl. now rewrite Hget.
  - apply IH. destruct Hin as [Heq | Hin]; [now symmetry in Heq | exact Hin].
Qed.

(** The body of a method returns whatever it is given. *)
Lemma method_body_returns n f :
  In (n, f) all_methods -> forall vs, exists r, fn_body f vs = inr r.
Proof.
  intros Hin vs. unfold all_methods, GeoAgent.tools, MapToolsUnregistered.methods in Hin.
  simpl in Hin.
  repeat (destruct Hin as [Hin | Hin];
          [ injection Hin as <- <-; eexists; reflexivity | ]).
  contradiction.
Qed.

(** When a keyword call of a method goes through. *)
Lemma method_call_accepted n f kwargs :
  In (n, f) all_methods ->
  ((exists r, call_kwargs f kwargs = inr r)
   <-> (forall k, In k (dict_keys kwargs) -> In k (param_names f))
       /\ (forall p, In p (required_params f) -> In p (dict_keys kwargs))).
Proof.
  intros Hin. unfold call_kwargs. split.
  - intros [r Hr].
    destruct (check_keywords f kwargs) eqn:Hck; [discriminate |].
    destruct (missing_params f kwargs) eqn:Hmiss; [| discriminate].
    split; [now apply check_keywords_None | now apply missing_params_nil].
  - intros [Hkeys Hreq].
    apply check_keywords_None in Hkeys. apply missing_params_nil in Hreq.
    rewrite Hkeys, Hreq. apply (method_body_returns n f Hin).
Qed.

(** X5: a keyword call of a method of the class succeeds exactly when
    every keyword names one of its parameters and every parameter without
    default has a keyword; nothing else about the arguments is checked. *)
Theorem call_accepted_iff n f kwargs :
  In (n, f) all_methods ->
  ((exists r, call_kwargs f kwargs = inr r)
   <-> (forall k, In k (dict_keys kwargs) -> In k (param_names f))
       /\ (forall p, In p (required_params f) -> In p (dict_keys kwargs))).
Proof.
  intros Hin. split.
  - intros Hcall. now apply (method_call_accepted n f kwargs Hin).
  - intros Hok. now apply (method_call_accepted n f kwargs Hin).
Qed.

(** X6: the value of a supplied argument reaches the payload as it is,
    whatever its type. *)
Theorem supplied_arguments_pass_through n f kwargs r :
  In (n, f) GeoAgent.tools ->
  call_kwargs f kwargs = inr r ->
  exists payload,
    r = PDict [("action", PStr n); ("payload", PDict payload)]
    /\ (forall p v, dict_get p kwargs = Some v -> dict_get p payload = Some v).
Proof.
  intros Hin Hcall.
  exists (combine (param_names f) (bind_params f kwargs)).
  split; [exact (tools_call n f kwargs r Hin Hcall) |].
  intros p v Hget. apply dict_get_bound; [exact Hget |].
  unfold call_kwargs in Hcall.
  destruct (check_keywords f kwargs) eqn:Hck; [discriminate |].
  apply (proj1 (check_keywords_None f kwargs) Hck).
  apply dict_mem_In. unfold dict_mem. now rewrite Hget.
Qed.

(** ** Results and effects of the map agent *)

(** The whole outcome of a run that got a first choice: the result, the
    request sent and the line printed, if any. *)
Lemma geo_ask_answered_full MODEL_NAME API_BASE completion json_loads query history w
    resp m ms :
  completion (GeoAgent.outbound MODEL_NAME API_BASE query history) = inr resp ->
  choices resp = m :: ms ->
  GeoAgent.ask MODEL_NAME API_BASE completion json_loads query history w
  = let (result, log) :=
      match msg_tool_calls m with
      | None | Some [] => (GeoAgent.chat_response (msg_content m), [])
      | Some (tc :: _) =>
          match dict_get (tc_name tc) GeoAgent.tools with
          | Some f =>
              match call_spread f (loads_or_empty json_loads
                                     (or_empty_object (tc_arguments tc))) with
              | inr r => (r, [])
              | inl e => (GeoAgent.error_result (exn_str e),
                          [("An error occurred: " ++ exn_str e)%string])
              end
          | None =>
              (GeoAgent.error_result ("Tool '" ++ tc_name tc ++ "' not found."), [])
          end
      end in
    (inr result,
     mk_world (sent w ++ [GeoAgent.outbound MODEL_NAME API_BASE query history])
              (stdout w ++ log)).
Proof.
  intros Hc Hm.
  unfold GeoAgent.ask, try_except, GeoAgent.ask_body, bind, call_completion, lift,
    ret, print.
  unfold GeoAgent.outbound in *. rewrite Hc, Hm. cbn [index0].
  destruct w as [sent0 stdout0]. cbn [sent stdout].
  destruct (msg_tool_calls m) as [[| tc rest] |];
    try (rewrite app_nil_r; reflexivity).
  cbv zeta.
  destruct (dict_get (tc_name tc) GeoAgent.tools) as [f |];
    [| rewrite app_nil_r; reflexivity].
  destruct (call_spread f _); [reflexivity | rewrite app_nil_r; reflexivity].
Qed.

Lemma hello_ask_answered_full MODEL_NAME BASE_URL completion json_loads greet query w
    resp m ms :
  completion (HelloWorldAgent.outbound MODEL_NAME BASE_URL query) = inr resp ->
  choices resp = m :: ms ->
  HelloWorldAgent.ask MODEL_NAME BASE_URL completion json_loads greet query w
  = let (result, log) :=
      match msg_tool_calls m with
      | None | Some [] => (HelloWorldAgent.reply (of_opt_str (msg_content m)), [])
      | Some (tc :: _) =>
          match dict_get (tc_name tc) (HelloWorldAgent.tool_functions greet) with
          | Some f =>
              match call_spread f (loads_or_empty json_loads
                                     (or_empty_object (tc_arguments tc))) with
              | inr r => (HelloWorldAgent.reply r, [])
              | inl e => (HelloWorldAgent.reply (PStr ("Error: " ++ exn_str e)),
                          [("An error occurred: " ++ exn_str e)%string])
              end
          | None =>
              (HelloWorldAgent.reply
                 (PStr ("Error: Tool '" ++ tc_name tc ++ "' not found.")), [])
          end
      end in
    (inr result,
     mk_world (sent w ++ [HelloWorldAgent.outbound MODEL_NAME BASE_URL query])
              (stdout w ++ log)).
Proof.
  intros Hc Hm.
  unfold HelloWorldAgent.ask, try_except, HelloWorldAgent.ask_body, bind,
    call_completion, lift, ret, print.
  unfold HelloWorldAgent.outbound in *. rewrite Hc, Hm. cbn [index0].
  destruct w as [sent0 stdout0]. cbn [sent stdout].
  destruct (msg_tool_calls m) as [[| tc rest] |];
    try (rewrite app_nil_r; reflexivity).
  cbv zeta.
  destruct (dict_get (tc_name tc) _) as [f |];
    [| rewrite app_nil_r; reflexivity].
  destruct (call_spread f _); [reflexivity | rewrite app_nil_r; reflexivity].
Qed.




(** X1: every run sends exactly one request; it carries the model name,
    the agent's own schema list and, only when the base URL setting is a
    non-empty string, the keyword api_base; an empty setting is treated
    as no setting.  The greeting agent sends the system prompt and the
    query, nothing else. *)
Theorem ask_request_contents MODEL_NAME API_BASE completion json_loads greet
    query history w :
  let api_base :=
    match API_BASE with
    | Some (String c s) => [("api_base", PStr (String c s))]
    | Some EmptyString | None => []
    end in
  sent (snd (GeoAgent.ask MODEL_NAME API_BASE completion json_loads query history w))
  = sent w
    ++ [mk_request MODEL_NAME
          (PDict [("role", PStr "system"); ("content", PStr GeoAgent.system_prompt)]
           :: history ++ [PDict [("role", PStr "user"); ("content", PStr query)]])
          GeoAgent.tool_specs api_base]
  /\ sent (snd (HelloWorldAgent.ask MODEL_NAME API_BASE completion json_loads greet
                  query w))
     = sent w
       ++ [mk_request MODEL_NAME
             [ PDict [("role", PStr "system");
                      ("content", PStr HelloWorldAgent.system_prompt)];
               PDict [("role", PStr "user"); ("content", PStr query)] ]
             HelloWorldAgent.tool_specs api_base].
Proof.
  cbv zeta. rewrite geo_ask_sent, hello_ask_sent.
  unfold GeoAgent.outbound, HelloWorldAgent.outbound.
  rewrite build_messages_eq.
  destruct API_BASE as [[| c s] |]; split; reflexivity.
Qed.




(** ** Tool calls of the map agent, end to end *)

(** The module and the qualified name of a registered method. *)
Lemma tools_qualname n f :
  In (n, f) GeoAgent.tools ->
  fn_module f = "tools" /\ fn_qualname f = ("MapTools." ++ n)%string.
Proof.
  intros Hin. unfold GeoAgent.tools in Hin. simpl in Hin.
  repeat (destruct Hin as [Hin | Hin];
          [injection Hin as <- <-; split; reflexivity |]).
  contradiction.
Qed.

Lemma tools_in_all n f : In (n, f) GeoAgent.tools -> In (n, f) all_methods.
Proof. intros Hin. unfold all_methods. apply in_or_app. now left. Qed.

(** X7: when the response selects a registered tool and the argument text
    decodes to an object whose keys are parameters of the tool and cover
    the required ones, [ask] returns the tool's instruction, with every
    parameter bound, sends its one request and prints nothing. *)
Theorem ask_tool_success MODEL_NAME API_BASE completion json_loads query history w
    resp m ms tc rest f kwargs :
  completion (GeoAgent.outbound MODEL_NAME API_BASE query history) = inr resp ->
  choices resp = m :: ms ->
  msg_tool_calls m = Some (tc :: rest) ->
  dict_get (tc_name tc) GeoAgent.tools = Some f ->
  json_loads (or_empty_object (tc_arguments tc)) = inr (PDict kwargs) ->
  (forall k, In k (dict_keys kwargs) -> In k (param_names f)) ->
  (forall p, In p (required_params f) -> In p (dict_keys kwargs)) ->
  GeoAgent.ask MODEL_NAME API_BASE completion json_loads query history w
  = (inr (PDict [("action", PStr (tc_name tc));
                 ("payload", PDict (combine (param_names f) (bind_params f kwargs)))]),
     mk_world (sent w ++ [GeoAgent.outbound MODEL_NAME API_BASE query history])
              (stdout w)).
Proof.
  intros Hc Hm Htc Hf Hj Hkeys Hreq.
  pose proof (dict_get_In _ _ _ Hf) as Hin.
  rewrite (geo_ask_answered_full _ _ _ _ _ _ w _ _ _ Hc Hm), Htc, Hf.
  unfold loads_or_empty. rewrite Hj. cbn [call_spread].
  destruct (proj2 (method_call_accepted _ f kwargs (tools_in_all _ _ Hin))
              (conj Hkeys Hreq)) as [r Hr].
  rewrite Hr, (tools_call _ f kwargs r Hin Hr), app_nil_r. reflexivity.
Qed.

(** X8: argument text that is well-formed JSON but not an object (a
    number, a string, a list, true, false, null) is not replaced by the
    empty argument set: the call fails, also for a tool without
    parameters, and the request ends in an error result that names the
    type found. *)
Theorem ask_arguments_not_object MODEL_NAME API_BASE completion json_loads
    query history w resp m ms tc rest f v :
  completion (GeoAgent.outbound MODEL_NAME API_BASE query history) = inr resp ->
  choices resp = m :: ms ->
  msg_tool_calls m = Some (tc :: rest) ->
  dict_get (tc_name tc) GeoAgent.tools = Some f ->
  json_loads (or_empty_object (tc_arguments tc)) = inr v ->
  (forall kwargs, v <> PDict kwargs) ->
  fst (GeoAgent.ask MODEL_NAME API_BASE completion json_loads query history w)
  = inr (PDict [("action", PStr "error");
                ("payload",
                 PDict [("message",
                         PStr ("tools.MapTools." ++ tc_name tc
                               ++ "() argument after ** must be a mapping, not "
                               ++ type_name v))])]).
Proof.
  intros Hc Hm Htc Hf Hj Hv.
  rewrite (geo_ask_answered _ _ _ _ _ _ w _ _ _ Hc Hm), Htc, Hf.
  unfold loads_or_empty. rewrite Hj.
  destruct (tools_qualname _ f (dict_get_In _ _ _ Hf)) as [Hmod Hq].
  destruct v; try (cbn; rewrite Hmod, Hq; reflexivity).
  now contradiction (Hv d).
Qed.

(** Each schema stays within the signature it advertises: the names it
    offers are parameters, the names it requires are among those it
    offers, and every parameter without default is required. *)
Lemma schema_within_signature n f spec :
  In (n, f) GeoAgent.tools ->
  specs_named n GeoAgent.tool_specs = [spec] ->
  (forall k, In k (spec_properties spec) -> In k (param_names f))
  /\ (forall p, In p (required_params f) -> In p (spec_required spec))
  /\ (forall p, In p (spec_required spec) -> In p (spec_properties spec)).
Proof.
  intros Hin Hspec. unfold GeoAgent.tools in Hin. simpl in Hin.
  repeat (destruct Hin as [Hin | Hin];
          [ injection Hin as <- <-; vm_compute in Hspec; injection Hspec as <-;
            repeat split; intros x; vm_compute; tauto
          | ]).
  contradiction.
Qed.

(** X9: arguments that conform to the advertised schema of a tool (keys
    among the schema's properties, required names present) are always
    accepted by the implementation: the call returns the tool's
    instruction. *)
Theorem schema_conforming_call_succeeds n f spec kwargs :
  In (n, f) GeoAgent.tools ->
  specs_named n GeoAgent.tool_specs = [spec] ->
  (forall k, In k (dict_keys kwargs) -> In k (spec_properties spec)) ->
  (forall p, In p (spec_required spec) -> In p (dict_keys kwargs)) ->
  exists payload,
    call_kwargs f kwargs = inr (PDict [("action", PStr n); ("payload", PDict payload)])
    /\ dict_keys payload = param_names f.
Proof.
  intros Hin Hspec Hkeys Hreq.
  destruct (schema_within_signature n f spec Hin Hspec) as [Hprops [Hrequired _]].
  destruct (proj2 (method_call_accepted n f kwargs (tools_in_all _ _ Hin))) as [r Hr].
  { split.
    - intros k Hk. apply Hprops, Hkeys, Hk.
    - intros p Hp. apply Hreq, Hrequired, Hp. }
  exists (combine (param_names f) (bind_params f kwargs)).
  split; [now rewrite Hr, (tools_call n f kwargs r Hin Hr) |].
  unfold dict_keys, param_names, bind_params, dict_keys.
  clear. induction (fn_params f) as [| [k d] ps IH]; simpl; [reflexivity |].
  now rewrite IH.
Qed.

(** ** Texts of invocation failures *)










(** ** The methods outside the table *)

(** X10: seven methods of the class are not in the agent's table.  The
    six with a fixed signature work when called directly (the instruction
    carries the method's own name; create_map packs the centre as a list,
    longitude first), yet a response that selects one of the seven by name
    is answered with the not-found error, whatever the arguments, and
    nothing is printed. *)
Theorem unregistered_methods_not_dispatched :
  (forall n f kwargs r,
     In (n, f) MapToolsUnregistered.methods ->
     call_kwargs f kwargs = inr r ->
     exists payload, r = PDict [("action", PStr n); ("payload", PDict payload)])
  /\ call_kwargs MapToolsUnregistered.create_map_m []
     = inr (PDict [("action", PStr "create_map");
                   ("payload",
                    PDict [("center",
                            PList [PFloat MapToolsUnregistered.float_0_0;
                                   PFloat MapToolsUnregistered.float_20_0]);
                           ("zoom", PInt 2);
                           ("style", PStr "liberty");
                           ("projection", PStr "globe")])])
  /\ (forall MODEL_NAME API_BASE completion json_loads query history w
             resp m ms tc rest,
        completion (GeoAgent.outbound MODEL_NAME API_BASE query history) = inr resp ->
        choices resp = m :: ms ->
        msg_tool_calls m = Some (tc :: rest) ->
        In (tc_name tc) MapToolsUnregistered.names ->
        GeoAgent.ask MODEL_NAME API_BASE completion json_loads query history w
        = (inr (PDict [("action", PStr "error");
                       ("payload",
                        PDict [("message",
                                PStr ("Tool '" ++ tc_name tc ++ "' not found."))])]),
           mk_world (sent w ++ [GeoAgent.outbound MODEL_NAME API_BASE query history])
                    (stdout w))).
Proof.
  split; [| split; [reflexivity |]].
  - intros n f kwargs r Hin Hcall. unfold call_kwargs in Hcall.
    destruct (check_keywords f kwargs); [discriminate |].
    destruct (missing_params f kwargs); [| discriminate].
    unfold MapToolsUnregistered.methods in Hin. simpl in Hin.
    repeat (destruct Hin as [Hin | Hin];
            [ injection Hin as <- <-; cbn in Hcall; injection Hcall as <-;
              eexists; reflexivity
            | ]).
    contradiction.
  - intros MODEL_NAME API_BASE completion json_loads query history w
           resp m ms tc rest Hc Hm Htc Hin.
    rewrite (geo_ask_answered_full _ _ _ _ _ _ w _ _ _ Hc Hm), Htc.
    assert (Hget : dict_get (tc_name tc) GeoAgent.tools = None).
    { unfold MapToolsUnregistered.names in Hin. simpl in Hin.
      repeat (destruct Hin as [<- | Hin]; [reflexivity |]).
      contradiction. }
    rewrite Hget, app_nil_r. reflexivity.
Qed.

(** ** More concrete runs *)

(** fly_to with longitude and latitude, and no zoom, is accepted. *)
Lemma call_accepted_iff_run :
  In ("fly_to", MapTools.fly_to_m) all_methods
  /\ exists r,
       call_kwargs MapTools.fly_to_m [("longitude", PInt 2); ("latitude", PInt 48)]
       = inr r.
Proof.
  assert (Hin : In ("fly_to", MapTools.fly_to_m) all_methods) by (left; reflexivity).
  split; [exact Hin |].
  apply (proj2 (call_accepted_iff "fly_to" MapTools.fly_to_m
                  [("longitude", PInt 2); ("latitude", PInt 48)] Hin)).
  split; intros x Hx; simpl in *; tauto.
Defined.

(** zoom_to takes a string for a zoom level as it comes. *)
Lemma supplied_arguments_pass_through_run :
  exists payload,
    PDict [("action", PStr "zoom_to"); ("payload", PDict [("zoom", PStr "far")])]
    = PDict [("action", PStr "zoom_to"); ("payload", PDict payload)]
    /\ (forall p v, dict_get p [("zoom", PStr "far")] = Some v ->
                    dict_get p payload = Some v).
Proof.
  apply (supplied_arguments_pass_through "zoom_to" MapTools.zoom_to_m
           [("zoom", PStr "far")]).
  - right; left; reflexivity.
  - reflexivity.
Defined.

(** A flight decoded from its argument text. *)
Lemma ask_tool_success_run :
  GeoAgent.ask "ollama/llama3.1" None (selects "fly_to" fly_to_text)
    Json.json_decode "fly to Paris" [] world0
  = (inr (PDict [("action", PStr "fly_to");
                 ("payload", PDict [("longitude", PInt 2); ("latitude", PInt 48);
                                    ("zoom", PInt 12)])]),
     mk_world [GeoAgent.outbound "ollama/llama3.1" None "fly to Paris" []] []).
Proof.
  apply (ask_tool_success "ollama/llama3.1" None (selects "fly_to" fly_to_text)
           Json.json_decode "fly to Paris" [] world0
           (single_choice None (Some [mk_tool_call "fly_to" (Some fly_to_text)]))
           (mk_message None (Some [mk_tool_call "fly_to" (Some fly_to_text)])) []
           (mk_tool_call "fly_to" (Some fly_to_text)) []
           MapTools.fly_to_m [("longitude", PInt 2); ("latitude", PInt 48)]);
    try reflexivity.
  - intros k Hk. simpl in *. tauto.
  - intros p Hp. simpl in *. tauto.
Defined.

(** A list where an object is expected, for a tool without parameters. *)
Lemma ask_arguments_not_object_run :
  fst (GeoAgent.ask "ollama/llama3.1" None (selects "get_layer_names" "[1, 2]")
         Json.json_decode "layers" [] world0)
  = inr (PDict [("action", PStr "error");
                ("payload",
                 PDict [("message",
                         PStr ("tools.MapTools.get_layer_names() argument after ** "
                               ++ "must be a mapping, not list"))])]).
Proof.
  apply (ask_arguments_not_object "ollama/llama3.1" None
           (selects "get_layer_names" "[1, 2]") Json.json_decode "layers" [] world0
           (single_choice None (Some [mk_tool_call "get_layer_names" (Some "[1, 2]")]))
           (mk_message None (Some [mk_tool_call "get_layer_names" (Some "[1, 2]")])) []
           (mk_tool_call "get_layer_names" (Some "[1, 2]")) []
           MapTools.get_layer_names_m (PList [PInt 1; PInt 2]));
    try reflexivity.
  intros kwargs. discriminate.
Defined.

(** Arguments that fit the schema of fly_to. *)
Lemma schema_conforming_call_succeeds_run :
  exists payload,
    call_kwargs MapTools.fly_to_m [("longitude", PInt 2); ("latitude", PInt 48)]
    = inr (PDict [("action", PStr "fly_to"); ("payload", PDict payload)])
    /\ dict_keys payload = param_names MapTools.fly_to_m.
Proof.
  eapply (schema_conforming_call_succeeds "fly_to" MapTools.fly_to_m _
            [("longitude", PInt 2); ("latitude", PInt 48)]).
  - left; reflexivity.
  - vm_compute. reflexivity.
  - intros k Hk. vm_compute in Hk. vm_compute. tauto.
  - intros p Hp. vm_compute in Hp. vm_compute. tauto.
Defined.



(** create_map exists in the class and is not found by the agent. *)
Lemma unregistered_methods_not_dispatched_run :
  In "create_map" MapToolsUnregistered.names
  /\ GeoAgent.ask "ollama/llama3.1" None (selects "create_map" "{}")
       Json.json_decode "new map" [] world0
     = (inr (PDict [("action", PStr "error");
                    ("payload",
                     PDict [("message", PStr "Tool 'create_map' not found.")])]),
        mk_world [GeoAgent.outbound "ollama/llama3.1" None "new map" []] []).
Proof.
  assert (Hin : In "create_map" MapToolsUnregistered.names) by (left; reflexivity).
  split; [exact Hin |].
  apply (proj2 (proj2 unregistered_methods_not_dispatched)
           "ollama/llama3.1" None (selects "create_map" "{}")
           Json.json_decode "new map" [] world0
           (single_choice None (Some [mk_tool_call "create_map" (Some "{}")]))
           (mk_message None (Some [mk_tool_call "create_map" (Some "{}")])) []
           (mk_tool_call "create_map" (Some "{}")) []);
    try reflexivity.
  exact Hin.
Defined.
